(** * returnlinter: WriteHeader calls must be followed by a return

    A shallow embedding of the analyzer of [returnlinter.go] and of the
    parts of [go/ast] it relies on (the syntax tree, [Pos], [ast.Inspect]),
    followed by the properties of the analyzer. *)

From Stdlib Require Import List ZArith String Bool Arith Lia.
Import ListNotations.

Set Implicit Arguments.

(* ================================================================== *)
(** ** [go/token]: source positions *)

Module token.
(** [token.Pos] is a Go [int]; [NoPos] is its zero value. *)
Definition Pos := Z.
Definition NoPos : Pos := 0%Z.
Definition IsValid (p : Pos) : bool := negb (Z.eqb p NoPos).
End token.

Bind Scope Z_scope with token.Pos.

(* ================================================================== *)
(** ** [go/ast]: the syntax tree

    Every node kind of [go/ast] that can occur below a function declaration
    is present.  A pointer or interface field is an [option] where [go/ast]
    documents it as "or nil" or tests it against nil; fields that neither
    the analyzer, [Pos()] nor [ast.Walk] reads (operator tokens, closing
    positions, comment groups) are left out. *)

Record Ident := mkIdent { NamePos : token.Pos; Name : string }.
Record BasicLit := mkBasicLit { ValuePos : token.Pos; Value : string }.

(** Struct types that other nodes hold by pointer are records over the
    expression (or statement) type, so that the tree is one mutual inductive
    definition nested through them. *)
Record CallExpr_ (E : Type) := mkCallExpr { Fun : E; Args : list E }.

Record Field_ (E : Type) := mkField {
  FieldNames : list Ident;          (* nil for unnamed parameters *)
  FieldType : option E;
  FieldTag : option BasicLit }.

Record FieldList_ (E : Type) := mkFieldList {
  Opening : token.Pos;
  FieldListList : list (Field_ E) }.

Record FuncType_ (E : Type) := mkFuncType {
  Func : token.Pos;                       (* NoPos if there is no "func" *)
  TypeParams : option (FieldList_ E);
  Params : option (FieldList_ E);
  Results : option (FieldList_ E) }.

Inductive Spec_ (E : Type) : Type :=
| ImportSpec (ImportName : option Ident) (Path : BasicLit)
| ValueSpec (SpecNames : list Ident) (SpecType : option E) (Values : list E)
| TypeSpec (SpecName : Ident) (SpecTypeParams : option (FieldList_ E))
           (SpecType : E).
Arguments ImportSpec {E} ImportName Path.
Arguments ValueSpec {E} SpecNames SpecType Values.
Arguments TypeSpec {E} SpecName SpecTypeParams SpecType.

Record GenDecl_ (E : Type) := mkGenDecl {
  TokPos : token.Pos;
  Specs : list (Spec_ E) }.

Record BlockStmt_ (S : Type) := mkBlockStmt {
  Lbrace : token.Pos;
  BlockList : list S }.

#[warnings="-register-all"]
Inductive Expr : Type :=
| E_BadExpr (From_ : token.Pos)
| E_Ident (id : Ident)
| E_Ellipsis (Ellipsis : token.Pos) (Elt : option Expr)
| E_BasicLit (lit : BasicLit)
| E_FuncLit (Typ : FuncType_ Expr) (Body : BlockStmt_ Stmt)
| E_CompositeLit (Typ : option Expr) (Lbrace_ : token.Pos) (Elts : list Expr)
| E_ParenExpr (Lparen : token.Pos) (X : Expr)
| E_SelectorExpr (X : Expr) (Sel : Ident)
| E_IndexExpr (X : Expr) (Index : Expr)
| E_IndexListExpr (X : Expr) (Indices : list Expr)
| E_SliceExpr (X : Expr) (Low High Max : option Expr)
| E_TypeAssertExpr (X : Expr) (Typ : option Expr)
| E_CallExpr (call : CallExpr_ Expr)
| E_StarExpr (Star : token.Pos) (X : Expr)
| E_UnaryExpr (OpPos : token.Pos) (X : Expr)
| E_BinaryExpr (X : Expr) (Y : Expr)
| E_KeyValueExpr (Key : Expr) (Val : Expr)
| E_ArrayType (Lbrack : token.Pos) (Len : option Expr) (Elt : Expr)
| E_StructType (Struct : token.Pos) (Fields : FieldList_ Expr)
| E_FuncType (ft : FuncType_ Expr)
| E_InterfaceType (Interface : token.Pos) (Methods : FieldList_ Expr)
| E_MapType (Map : token.Pos) (Key : Expr) (Val : Expr)
| E_ChanType (Begin : token.Pos) (Val : Expr)
with Stmt : Type :=
| S_BadStmt (From_ : token.Pos)
| S_DeclStmt (Decl : GenDecl_ Expr)
| S_EmptyStmt (Semicolon : token.Pos)
| S_LabeledStmt (Label : Ident) (Stmt_ : Stmt)
| S_ExprStmt (X : Expr)
| S_SendStmt (Chan : Expr) (Val : Expr)
| S_IncDecStmt (X : Expr)
| S_AssignStmt (Lhs : list Expr) (Rhs : list Expr)
| S_GoStmt (Go : token.Pos) (Call : CallExpr_ Expr)
| S_DeferStmt (Defer : token.Pos) (Call : CallExpr_ Expr)
| S_ReturnStmt (Return : token.Pos) (Res : list Expr)
| S_BranchStmt (TokPos_ : token.Pos) (Label : option Ident)
| S_BlockStmt (block : BlockStmt_ Stmt)
| S_IfStmt (If : token.Pos) (Init : option Stmt) (Cond : Expr)
           (Body : BlockStmt_ Stmt) (Else : option Stmt)
| S_CaseClause (Case : token.Pos) (CaseList : list Expr) (Body : list Stmt)
| S_SwitchStmt (Switch : token.Pos) (Init : option Stmt) (Tag : option Expr)
               (Body : BlockStmt_ Stmt)
| S_TypeSwitchStmt (Switch : token.Pos) (Init : option Stmt) (Assign : Stmt)
                   (Body : BlockStmt_ Stmt)
| S_CommClause (Case : token.Pos) (Comm : option Stmt) (Body : list Stmt)
| S_SelectStmt (Select : token.Pos) (Body : BlockStmt_ Stmt)
| S_ForStmt (For : token.Pos) (Init : option Stmt) (Cond : option Expr)
            (Post : option Stmt) (Body : BlockStmt_ Stmt)
| S_RangeStmt (For : token.Pos) (Key : option Expr) (Val : option Expr)
              (X : Expr) (Body : BlockStmt_ Stmt).

Abbreviation CallExpr := (CallExpr_ Expr).
Abbreviation Field := (Field_ Expr).
Abbreviation FieldList := (FieldList_ Expr).
Abbreviation FuncType := (FuncType_ Expr).
Abbreviation Spec := (Spec_ Expr).
Abbreviation GenDecl := (GenDecl_ Expr).
Abbreviation BlockStmt := (BlockStmt_ Stmt).

(** [FuncDecl.Body] is "nil for external (non-Go) function". *)
Record FuncDecl := mkFuncDecl {
  Recv : option FieldList;
  FuncName : Ident;
  FuncDeclType : FuncType;
  FuncBody : option BlockStmt }.

Inductive Decl : Type :=
| D_BadDecl (From_ : token.Pos)
| D_GenDecl (d : GenDecl)
| D_FuncDecl (d : FuncDecl).

Record File := mkFile { Package : Ident; Decls : list Decl }.

(* ================================================================== *)
(** ** [go/ast]: [Pos()] *)

Section PosOfContainers.
Variable ExprPos : Expr -> token.Pos.

Definition FieldPos (f : Field) : token.Pos :=
  match FieldNames f with
  | n :: _ => NamePos n
  | [] => match FieldType f with
          | Some t => ExprPos t
          | None => token.NoPos
          end
  end.

Definition FieldListPos (f : FieldList) : token.Pos :=
  if token.IsValid (Opening f) then Opening f
  else match FieldListList f with
       | fd :: _ => FieldPos fd
       | [] => token.NoPos
       end.

Definition FuncTypePos (x : FuncType) : token.Pos :=
  if token.IsValid (Func x) then Func x
  else match Params x with
       | None => Func x
       | Some ps => FieldListPos ps
       end.
End PosOfContainers.

Fixpoint ExprPos (x : Expr) : token.Pos :=
  match x with
  | E_BadExpr p => p
  | E_Ident id => NamePos id
  | E_Ellipsis p _ => p
  | E_BasicLit l => ValuePos l
  | E_FuncLit t _ => FuncTypePos ExprPos t
  | E_CompositeLit (Some t) _ _ => ExprPos t
  | E_CompositeLit None lbrace _ => lbrace
  | E_ParenExpr p _ => p
  | E_SelectorExpr x _ => ExprPos x
  | E_IndexExpr x _ => ExprPos x
  | E_IndexListExpr x _ => ExprPos x
  | E_SliceExpr x _ _ _ => ExprPos x
  | E_TypeAssertExpr x _ => ExprPos x
  | E_CallExpr c => ExprPos (Fun c)
  | E_StarExpr p _ => p
  | E_UnaryExpr p _ => p
  | E_BinaryExpr x _ => ExprPos x
  | E_KeyValueExpr k _ => ExprPos k
  | E_ArrayType p _ _ => p
  | E_StructType p _ => p
  | E_FuncType t => FuncTypePos ExprPos t
  | E_InterfaceType p _ => p
  | E_MapType p _ _ => p
  | E_ChanType p _ => p
  end.

(* ================================================================== *)
(** ** [go/ast]: [Walk] and [Inspect]

    [ast.Walk] calls the visitor on a node, then, unless the visitor said
    to stop, walks the node's non-nil children in the order its type switch
    lists them, and finally calls the visitor on nil.  The table of children
    is [treeE]/[treeS]; the traversal over it is [WalkTree]. *)

Inductive Node : Type :=
| N_Expr (e : Expr)
| N_Stmt (s : Stmt)
| N_Field (f : Field)
| N_FieldList (l : FieldList)
| N_Spec (s : Spec)
| N_GenDecl (d : GenDecl).

#[warnings="-register-all"]
Inductive Tree : Type := T (n : Node) (kids : list Tree).

Definition optKid {A : Type} (g : A -> Tree) (o : option A) : list Tree :=
  match o with
  | Some a => [g a]
  | None => []
  end.

Definition treeIdent (id : Ident) : Tree := T (N_Expr (E_Ident id)) [].
Definition treeBasicLit (l : BasicLit) : Tree := T (N_Expr (E_BasicLit l)) [].

Section ChildrenOfContainers.
Variable treeE : Expr -> Tree.
Variable treeS : Stmt -> Tree.

Definition treeField (f : Field) : Tree :=
  T (N_Field f)
    (map treeIdent (FieldNames f) ++ optKid treeE (FieldType f)
     ++ optKid treeBasicLit (FieldTag f)).

Definition treeFieldList (l : FieldList) : Tree :=
  T (N_FieldList l) (map treeField (FieldListList l)).

Definition kidsFuncType (t : FuncType) : list Tree :=
  optKid treeFieldList (TypeParams t) ++ optKid treeFieldList (Params t)
  ++ optKid treeFieldList (Results t).

Definition treeFuncType (t : FuncType) : Tree :=
  T (N_Expr (E_FuncType t)) (kidsFuncType t).

Definition kidsCallExpr (c : CallExpr) : list Tree :=
  treeE (Fun c) :: map treeE (Args c).

Definition treeCallExpr (c : CallExpr) : Tree :=
  T (N_Expr (E_CallExpr c)) (kidsCallExpr c).

Definition treeSpec (s : Spec) : Tree :=
  T (N_Spec s)
    match s with
    | ImportSpec n p => optKid treeIdent n ++ [treeBasicLit p]
    | ValueSpec names t vals =>
        map treeIdent names ++ optKid treeE t ++ map treeE vals
    | TypeSpec n tp t =>
        treeIdent n :: optKid treeFieldList tp ++ [treeE t]
    end.

Definition treeGenDecl (d : GenDecl) : Tree :=
  T (N_GenDecl d) (map treeSpec (Specs d)).

Definition kidsBlockStmt (b : BlockStmt) : list Tree :=
  map treeS (BlockList b).

Definition treeBlockStmt (b : BlockStmt) : Tree :=
  T (N_Stmt (S_BlockStmt b)) (kidsBlockStmt b).
End ChildrenOfContainers.

Fixpoint treeE (e : Expr) : Tree :=
  T (N_Expr e)
    match e with
    | E_BadExpr _ | E_Ident _ | E_BasicLit _ => []
    | E_Ellipsis _ elt => optKid treeE elt
    | E_FuncLit t b => [treeFuncType treeE t; treeBlockStmt treeS b]
    | E_CompositeLit t _ elts => optKid treeE t ++ map treeE elts
    | E_ParenExpr _ x => [treeE x]
    | E_SelectorExpr x sel => [treeE x; treeIdent sel]
    | E_IndexExpr x i => [treeE x; treeE i]
    | E_IndexListExpr x is_ => treeE x :: map treeE is_
    | E_SliceExpr x lo hi mx =>
        treeE x :: optKid treeE lo ++ optKid treeE hi ++ optKid treeE mx
    | E_TypeAssertExpr x t => treeE x :: optKid treeE t
    | E_CallExpr c => kidsCallExpr treeE c
    | E_StarExpr _ x => [treeE x]
    | E_UnaryExpr _ x => [treeE x]
    | E_BinaryExpr x y => [treeE x; treeE y]
    | E_KeyValueExpr k v => [treeE k; treeE v]
    | E_ArrayType _ len elt => optKid treeE len ++ [treeE elt]
    | E_StructType _ fields => [treeFieldList treeE fields]
    | E_FuncType t => kidsFuncType treeE t
    | E_InterfaceType _ methods => [treeFieldList treeE methods]
    | E_MapType _ k v => [treeE k; treeE v]
    | E_ChanType _ v => [treeE v]
    end
with treeS (s : Stmt) : Tree :=
  T (N_Stmt s)
    match s with
    | S_BadStmt _ | S_EmptyStmt _ => []
    | S_DeclStmt d => [treeGenDecl treeE d]
    | S_LabeledStmt l st => [treeIdent l; treeS st]
    | S_ExprStmt x => [treeE x]
    | S_SendStmt c v => [treeE c; treeE v]
    | S_IncDecStmt x => [treeE x]
    | S_AssignStmt lhs rhs => map treeE lhs ++ map treeE rhs
    | S_GoStmt _ c => [treeCallExpr treeE c]
    | S_DeferStmt _ c => [treeCallExpr treeE c]
    | S_ReturnStmt _ res => map treeE res
    | S_BranchStmt _ l => optKid treeIdent l
    | S_BlockStmt b => kidsBlockStmt treeS b
    | S_IfStmt _ init cond body els =>
        optKid treeS init ++ [treeE cond; treeBlockStmt treeS body]
        ++ optKid treeS els
    | S_CaseClause _ l body => map treeE l ++ map treeS body
    | S_SwitchStmt _ init tag body =>
        optKid treeS init ++ optKid treeE tag ++ [treeBlockStmt treeS body]
    | S_TypeSwitchStmt _ init assign body =>
        optKid treeS init ++ [treeS assign; treeBlockStmt treeS body]
    | S_CommClause _ comm body => optKid treeS comm ++ map treeS body
    | S_SelectStmt _ body => [treeBlockStmt treeS body]
    | S_ForStmt _ init cond post body =>
        optKid treeS init ++ optKid treeE cond ++ optKid treeS post
        ++ [treeBlockStmt treeS body]
    | S_RangeStmt _ k v x body =>
        optKid treeE k ++ optKid treeE v
        ++ [treeE x; treeBlockStmt treeS body]
    end.

Definition tree_of (n : Node) : Tree :=
  match n with
  | N_Expr e => treeE e
  | N_Stmt s => treeS s
  | N_Field f => treeField treeE f
  | N_FieldList l => treeFieldList treeE l
  | N_Spec s => treeSpec treeE s
  | N_GenDecl d => treeGenDecl treeE d
  end.

(** *** Code that may panic and that updates a state *)

Inductive Result (A : Type) : Type :=
| Ok (a : A)
| Panic.
Arguments Panic {A}.

Definition M (St A : Type) : Type := St -> Result (A * St).

Definition ret {St A : Type} (a : A) : M St A := fun s => Ok (a, s).

Definition bind {St A B : Type} (m : M St A) (k : A -> M St B) : M St B :=
  fun s => match m s with
           | Ok (a, s') => k a s'
           | Panic => Panic
           end.

Definition panic {St A : Type} : M St A := fun _ => Panic.

Notation "x <- m ;; k" := (bind m (fun x => k))
  (at level 61, m at next level, right associativity).
Notation "m ;; k" := (bind m (fun _ => k))
  (at level 61, right associativity).

Section ForEach.
Variables (St A : Type) (g : A -> M St unit).

Fixpoint forEach (l : list A) : M St unit :=
  match l with
  | [] => ret tt
  | x :: l' => g x ;; forEach l'
  end.
End ForEach.

(** The value of the [ast.Node] interface a visitor receives: a node, a nil
    [*ast.BlockStmt] stored in the interface, or the nil interface. *)
Inductive NodeValue : Type :=
| V (n : Node)
| V_NilBlockStmt
| V_Nil.

Section Walk.
Variable St : Type.
Variable Visit : NodeValue -> M St bool.

Fixpoint WalkTree (t : Tree) : M St unit :=
  match t with
  | T n kids =>
      w <- Visit (V n) ;;
      if w : bool then
        forEach WalkTree kids ;;
        _ <- Visit V_Nil ;;
        ret tt
      else ret tt
  end.

(** [Walk] starts with [v.Visit(node)] whatever [node] holds and then
    switches on its type: the case [*BlockStmt] reads [n.List], a nil
    dereference if the pointer is nil, and the default case panics with
    "unexpected node type". *)
Definition Walk (node : NodeValue) : M St unit :=
  match node with
  | V n => WalkTree (tree_of n)
  | V_NilBlockStmt =>
      w <- Visit V_NilBlockStmt ;; if w : bool then panic else ret tt
  | V_Nil => w <- Visit V_Nil ;; if w : bool then panic else ret tt
  end.
End Walk.

(** [ast.Inspect(node, f)] is [Walk(inspector(f), node)]. *)
Definition Inspect {St : Type} (node : NodeValue) (f : NodeValue -> M St bool)
  : M St unit :=
  Walk f node.

(** The [ast.Node] a [*ast.BlockStmt] converts to. *)
Definition blockNode (b : option BlockStmt) : NodeValue :=
  match b with
  | Some b => V (N_Stmt (S_BlockStmt b))
  | None => V_NilBlockStmt
  end.

(* ================================================================== *)
(** ** [go/analysis]: the pass and its diagnostics *)

Record Diagnostic := mkDiagnostic { Pos : token.Pos; Message : string }.

Record Pass := mkPass { Files : list File; Reported : list Diagnostic }.

Definition Reportf (pass : Pass) (pos : token.Pos) (msg : string) : Pass :=
  mkPass (Files pass) (Reported pass ++ [mkDiagnostic pos msg]).

(** [inspector.Preorder] with a filter that keeps function declarations:
    the [FuncDecl] nodes of the files, in order. *)
Definition Preorder_FuncDecl {St : Type} (files : list File)
    (f : FuncDecl -> M St unit) : M St unit :=
  forEach (fun file =>
             forEach (fun d => match d with
                               | D_FuncDecl funcDecl => f funcDecl
                               | _ => ret tt
                               end) (Decls file)) files.

(** Go's [for i, x := range l] over a state. *)
Section ForRange.
Variables (A : Type) (body : nat -> A -> Pass -> Pass).

Fixpoint forRangeFrom (i : nat) (l : list A) (pass : Pass) : Pass :=
  match l with
  | [] => pass
  | x :: l' => forRangeFrom (S i) l' (body i x pass)
  end.

Definition forRange : list A -> Pass -> Pass := forRangeFrom 0.
End ForRange.

(* ================================================================== *)
(** ** returnlinter.go *)

Definition message : string :=
  "WriteHeader call not immediately followed by return statement".

(** [isHTTPHandler]: a nil interface fails the first type assertion. *)
Definition isHTTPHandler (expr : option Expr) : bool :=
  match expr with
  | Some (E_SelectorExpr (E_Ident ident) sel) =>
      String.eqb (Name ident) "http" && String.eqb (Name sel) "Handler"
  | _ => false
  end.

Definition isMiddlewarePattern (funcDecl : FuncDecl) : bool :=
  match Results (FuncDeclType funcDecl) with
  | None => false
  | Some results =>
      if negb (Nat.eqb (List.length (FieldListList results)) 1) then false
      else match nth_error (FieldListList results) 0 with
           | Some field =>
               if negb (isHTTPHandler (FieldType field)) then false else true
           | None => false
           end
  end.

Definition isHandlerFuncCall (callExpr : CallExpr) : bool :=
  match Fun callExpr with
  | E_SelectorExpr (E_Ident ident) sel =>
      String.eqb (Name ident) "http" && String.eqb (Name sel) "HandlerFunc"
  | _ => false
  end.

Definition IsWriteHeaderCall (expr : Expr) : bool :=
  match expr with
  | E_CallExpr callExpr =>
      match Fun callExpr with
      | E_SelectorExpr _ sel => String.eqb (Name sel) "WriteHeader"
      | _ => false
      end
  | _ => false
  end.

Definition IsFollowedByReturn (stmts : list Stmt) (currentIndex : nat) : bool :=
  if Nat.leb (List.length stmts) (currentIndex + 1) then false
  else match nth_error stmts (currentIndex + 1) with
       | Some (S_ReturnStmt _ _) => true
       | _ => false
       end.

Definition isEmptyStmt (stmt : Stmt) : bool :=
  match stmt with
  | S_EmptyStmt _ => true
  | _ => false
  end.

Section CheckBlock.
Variable checkNestedWriteHeader : Stmt -> Pass -> Pass.

Definition checkBlockForWriteHeader_ (block : option BlockStmt) (pass : Pass)
  : Pass :=
  match block with
  | None => pass
  | Some block =>
      forRange
        (fun i stmt pass =>
           let pass :=
             match stmt with
             | S_ExprStmt x =>
                 if IsWriteHeaderCall x then
                   if negb (IsFollowedByReturn (BlockList block) i)
                   then Reportf pass (ExprPos x) message
                   else pass
                 else pass
             | _ => pass
             end in
           checkNestedWriteHeader stmt pass)
        (BlockList block) pass
  end.
End CheckBlock.

Fixpoint checkNestedWriteHeader (stmt : Stmt) (pass : Pass) : Pass :=
  match stmt with
  | S_IfStmt _ _ _ body els =>
      let pass :=
        checkBlockForWriteHeader_ checkNestedWriteHeader (Some body) pass in
      match els with
      | Some els => checkNestedWriteHeader els pass
      | None => pass
      end
  | S_BlockStmt s =>
      checkBlockForWriteHeader_ checkNestedWriteHeader (Some s) pass
  | S_ForStmt _ _ _ _ body =>
      checkBlockForWriteHeader_ checkNestedWriteHeader (Some body) pass
  | S_RangeStmt _ _ _ _ body =>
      checkBlockForWriteHeader_ checkNestedWriteHeader (Some body) pass
  | S_SwitchStmt _ _ _ body =>
      checkBlockForWriteHeader_ checkNestedWriteHeader (Some body) pass
  | S_TypeSwitchStmt _ _ _ body =>
      checkBlockForWriteHeader_ checkNestedWriteHeader (Some body) pass
  | S_SelectStmt _ body =>
      checkBlockForWriteHeader_ checkNestedWriteHeader (Some body) pass
  | S_CaseClause _ _ body =>
      forRange
        (fun i caseStmt pass =>
           let pass :=
             match caseStmt with
             | S_ExprStmt x =>
                 if IsWriteHeaderCall x then
                   if negb (IsFollowedByReturn body i)
                   then Reportf pass (ExprPos x) message
                   else pass
                 else pass
             | _ => pass
             end in
           checkNestedWriteHeader caseStmt pass)
        body pass
  | _ => pass
  end.

Definition checkBlockForWriteHeader : option BlockStmt -> Pass -> Pass :=
  checkBlockForWriteHeader_ checkNestedWriteHeader.

(** [checkHandlerBody] reads [body.List] without a nil check. *)
Definition checkHandlerBody (body : option BlockStmt) : M Pass unit :=
  match body with
  | None => panic
  | Some body =>
      fun pass =>
        Ok (tt,
            forRange
              (fun i stmt pass =>
                 let pass :=
                   match stmt with
                   | S_ExprStmt x =>
                       if IsWriteHeaderCall x then
                         if negb (IsFollowedByReturn (BlockList body) i)
                         then Reportf pass (ExprPos x) message
                         else pass
                       else pass
                   | _ => pass
                   end in
                 checkNestedWriteHeader stmt pass)
              (BlockList body) pass)
  end.

(** The function literal [run] hands to [ast.Inspect]. *)
Definition findHandlerFunc (node : NodeValue) : M Pass bool :=
  match node with
  | V (N_Expr (E_CallExpr callExpr)) =>
      (if isHandlerFuncCall callExpr then
         match Args callExpr with
         | E_FuncLit _ body :: _ => checkHandlerBody (Some body)
         | _ => ret tt
         end
       else ret tt) ;;
      ret true
  | _ => ret true
  end.

(** The function literal [run] hands to [inspect.Preorder]. *)
Definition visitFuncDecl (funcDecl : FuncDecl) : M Pass unit :=
  if negb (isMiddlewarePattern funcDecl) then ret tt
  else Inspect (blockNode (FuncBody funcDecl)) findHandlerFunc.

Definition run : M Pass unit :=
  fun pass => Preorder_FuncDecl (Files pass) visitFuncDecl pass.

(* ================================================================== *)
(** ** What the checker reports, as lists of diagnostics *)

Definition addDiags (pass : Pass) (ds : list Diagnostic) : Pass :=
  mkPass (Files pass) (Reported pass ++ ds).

Definition emptyPass : Pass := mkPass [] [].

(** The diagnostics [checkNestedWriteHeader] reports for a statement. *)
Definition nestedDiags (s : Stmt) : list Diagnostic :=
  Reported (checkNestedWriteHeader s emptyPass).

(** The diagnostic of the statement at index [i] of the list [l], if any. *)
Definition violationAt (l : list Stmt) (i : nat) (s : Stmt) : list Diagnostic :=
  match s with
  | S_ExprStmt x =>
      if IsWriteHeaderCall x && negb (IsFollowedByReturn l i)
      then [mkDiagnostic (ExprPos x) message]
      else []
  | _ => []
  end.

Definition indexed {A : Type} (i : nat) (l : list A) : list (nat * A) :=
  combine (seq i (List.length l)) l.

(** The diagnostics of one scan of a statement list, in the order of the
    statements: each statement's own diagnostic, then those nested in it. *)
Definition scanDiags (l : list Stmt) : list Diagnostic :=
  flat_map (fun ix => violationAt l (fst ix) (snd ix) ++ nestedDiags (snd ix))
           (indexed 0 l).

(** The statement list the checker scans when it meets a statement, and the
    statement it passes on to itself. *)
Definition scannedList (s : Stmt) : option (list Stmt) :=
  match s with
  | S_IfStmt _ _ _ body _ => Some (BlockList body)
  | S_BlockStmt b => Some (BlockList b)
  | S_ForStmt _ _ _ _ body => Some (BlockList body)
  | S_RangeStmt _ _ _ _ body => Some (BlockList body)
  | S_SwitchStmt _ _ _ body => Some (BlockList body)
  | S_TypeSwitchStmt _ _ _ body => Some (BlockList body)
  | S_SelectStmt _ body => Some (BlockList body)
  | S_CaseClause _ _ body => Some body
  | _ => None
  end.

Definition elseBranch (s : Stmt) : option Stmt :=
  match s with
  | S_IfStmt _ _ _ _ els => els
  | _ => None
  end.

Definition shapeDiags (s : Stmt) : list Diagnostic :=
  match scannedList s with
  | Some l => scanDiags l
  | None => []
  end
  ++ match elseBranch s with
     | Some e => nestedDiags e
     | None => []
     end.

(** Induction along the descent of the checker. *)
Definition Forall_all (A : Type) (P : A -> Prop) (f : forall x, P x)
  : forall l : list A, Forall P l :=
  fix all (l : list A) : Forall P l :=
    match l with
    | [] => Forall_nil P
    | x :: l' => Forall_cons x (f x) (all l')
    end.

Definition stmtsOf (o : option (list Stmt)) : list Stmt :=
  match o with
  | Some l => l
  | None => []
  end.

Definition holdsOn (P : Stmt -> Prop) (o : option Stmt) : Prop :=
  match o with
  | Some e => P e
  | None => True
  end.

(* ================================================================== *)
(** ** The adjacency rule, stated on the tree *)

(** The statement lists a scan reaches: the list itself and, for each of its
    statements, the lists the descent reaches from that statement. *)
Inductive ScannedBy : Stmt -> list Stmt -> Prop :=
| SB_list s l0 l :
    scannedList s = Some l0 -> ScannedFrom l0 l -> ScannedBy s l
| SB_else s e l :
    elseBranch s = Some e -> ScannedBy e l -> ScannedBy s l
with ScannedFrom : list Stmt -> list Stmt -> Prop :=
| SF_here l : ScannedFrom l l
| SF_nested l0 s l : In s l0 -> ScannedBy s l -> ScannedFrom l0 l.

Definition isReturnStmt (s : Stmt) : bool :=
  match s with
  | S_ReturnStmt _ _ => true
  | _ => false
  end.

(** A candidate: the statement at index [i] of [l] is an expression
    statement whose expression is a call with selector name WriteHeader. *)
Definition candidateAt (l : list Stmt) (i : nat) (x : Expr) : Prop :=
  nth_error l i = Some (S_ExprStmt x) /\ IsWriteHeaderCall x = true.

(** A statement exists at index [i+1] of the same list and is a return. *)
Definition returnFollows (l : list Stmt) (i : nat) : Prop :=
  exists s, nth_error l (i + 1) = Some s /\ isReturnStmt s = true.

Definition diagnosticOf (x : Expr) : Diagnostic :=
  mkDiagnostic (ExprPos x) message.

Definition violation (l : list Stmt) (i : nat) (x : Expr) (d : Diagnostic)
  : Prop :=
  candidateAt l i x /\ ~ returnFollows l i /\ d = diagnosticOf x.


(* ================================================================== *)
(** ** Nodes of a tree and the adapter calls among them *)

(** The nodes [ast.Walk] meets below a node, in the order it meets them. *)
Fixpoint nodes (t : Tree) : list Node :=
  match t with
  | T n kids => n :: flat_map nodes kids
  end.

(** The literal body of an adapter call: a call whose callee is the
    qualified name http.HandlerFunc and whose first argument is a function
    literal. *)
Definition adapterBody (n : Node) : list BlockStmt :=
  match n with
  | N_Expr (E_CallExpr callExpr) =>
      if isHandlerFuncCall callExpr then
        match Args callExpr with
        | E_FuncLit _ body :: _ => [body]
        | _ => []
        end
      else []
  | _ => []
  end.

(** What the adjacency checker reports on the literal body of a node that
    is an adapter call. *)
Definition nodeDiags (n : Node) : list Diagnostic :=
  flat_map (fun b => scanDiags (BlockList b)) (adapterBody n).

Definition adapterBodies (body : BlockStmt) : list BlockStmt :=
  flat_map adapterBody (nodes (tree_of (N_Stmt (S_BlockStmt body)))).

Definition funcDecls (files : list File) : list FuncDecl :=
  flat_map (fun file =>
              flat_map (fun d => match d with
                                 | D_FuncDecl funcDecl => [funcDecl]
                                 | _ => []
                                 end) (Decls file)) files.

(** What [visitFuncDecl] and [run] report; [None] stands for a panic. *)
Definition funcDeclDiags (funcDecl : FuncDecl) : option (list Diagnostic) :=
  if isMiddlewarePattern funcDecl then
    match FuncBody funcDecl with
    | Some body =>
        Some (flat_map (fun b => scanDiags (BlockList b)) (adapterBodies body))
    | None => None
    end
  else Some [].

Fixpoint runDiags (decls : list FuncDecl) : option (list Diagnostic) :=
  match decls with
  | [] => Some []
  | d :: decls' =>
      match funcDeclDiags d, runDiags decls' with
      | Some ds, Some ds' => Some (ds ++ ds')
      | _, _ => None
      end
  end.

(** [FieldList.NumFields] of [go/ast]: the number of parameters or results
    a field list declares; a field with names declares one per name. *)
Definition NumFields (f : option FieldList) : nat :=
  match f with
  | None => 0
  | Some f =>
      fold_left (fun n g =>
                   let m := List.length (FieldNames g) in
                   n + (if Nat.eqb m 0 then 1 else m))
                (FieldListList f) 0
  end.

(** The statement shapes the descent is closed over. *)
Definition isDescentShape (s : Stmt) : bool :=
  match s with
  | S_IfStmt _ _ _ _ _ | S_BlockStmt _ | S_ForStmt _ _ _ _ _
  | S_RangeStmt _ _ _ _ _ | S_SwitchStmt _ _ _ _ | S_TypeSwitchStmt _ _ _ _
  | S_SelectStmt _ _ | S_CaseClause _ _ _ => true
  | _ => false
  end.

Definition isCandidate (s : Stmt) : bool :=
  match s with
  | S_ExprStmt x => IsWriteHeaderCall x
  | _ => false
  end.

(** The diagnostics [checkHandlerBody] reports on a closure body. *)
Definition handlerBodyDiags (body : BlockStmt) : list Diagnostic :=
  match checkHandlerBody (Some body) emptyPass with
  | Ok (_, pass) => Reported pass
  | Panic => []
  end.

(* ================================================================== *)
(** ** Sample programs *)

Module Go.

Local Open Scope Z_scope.
Local Open Scope string_scope.

Definition ident (p : token.Pos) (name : string) : Expr :=
  E_Ident (mkIdent p name).

Definition selector (x : Expr) (p : token.Pos) (name : string) : Expr :=
  E_SelectorExpr x (mkIdent p name).

(** [pkg.name] at position [p]. *)
Definition qualified (p : token.Pos) (pkg name : string) : Expr :=
  selector (ident p pkg) (p + 1 + Z.of_nat (String.length pkg)) name.

Definition call (f : Expr) (args : list Expr) : Expr :=
  E_CallExpr (mkCallExpr f args).

Definition lit (p : token.Pos) (v : string) : Expr :=
  E_BasicLit (mkBasicLit p v).

(** [recv.method(arg)] at position [p]. *)
Definition method (p : token.Pos) (recv name arg : string) : Expr :=
  call (selector (ident p recv) (p + 1 + Z.of_nat (String.length recv)) name)
       [lit (p + 2 + Z.of_nat (String.length recv + String.length name)) arg].

(** The statement [w.WriteHeader(code)] at position [p]. *)
Definition writeHeader (p : token.Pos) (code : string) : Stmt :=
  S_ExprStmt (method p "w" "WriteHeader" code).

(** The statement [w.Write(body)] at position [p]. *)
Definition write (p : token.Pos) (body : string) : Stmt :=
  S_ExprStmt (method p "w" "Write" body).

Definition block (p : token.Pos) (l : list Stmt) : BlockStmt :=
  mkBlockStmt p l.

Definition fields (p : token.Pos) (l : list Field) : option FieldList :=
  Some (mkFieldList p l).

(** [name typ] as a parameter, or [typ] alone when [name] is empty. *)
Definition param (p : token.Pos) (names : list string) (typ : Expr) : Field :=
  mkField (map (mkIdent p) names) (Some typ) None.

(** [func(w http.ResponseWriter, r *http.Request) { body }] at [p]. *)
Definition handlerLit (p : token.Pos) (body : list Stmt) : Expr :=
  E_FuncLit
    (mkFuncType p None
       (fields (p + 4)
          [param (p + 5) ["w"] (qualified (p + 7) "http" "ResponseWriter");
           param (p + 28) ["r"]
                 (E_StarExpr (p + 30) (qualified (p + 31) "http" "Request"))])
       None)
    (block (p + 45) body).

(** [http.HandlerFunc(func(w http.ResponseWriter, r *http.Request) {
       body })] at [p]. *)
Definition handlerFunc (p : token.Pos) (body : list Stmt) : Expr :=
  call (qualified p "http" "HandlerFunc") [handlerLit (p + 17) body].

(** [func name(params) results { body }] at [p]. *)
Definition funcDecl (p : token.Pos) (name : string)
    (params results : option FieldList) (body : option (list Stmt))
  : FuncDecl :=
  mkFuncDecl None (mkIdent (p + 5) name) (mkFuncType p None params results)
             (option_map (block (p + 60)) body).

(** [func name(handler http.Handler) http.Handler {
       return http.HandlerFunc(func(...) { body }) }] at [p]. *)
Definition middleware (p : token.Pos) (name : string) (body : list Stmt)
  : FuncDecl :=
  funcDecl p name
    (fields (p + 20)
       [param (p + 21) ["handler"] (qualified (p + 29) "http" "Handler")])
    (fields token.NoPos
       [param (p + 43) [] (qualified (p + 43) "http" "Handler")])
    (Some [S_ReturnStmt (p + 62) [handlerFunc (p + 69) body]]).

Definition file (decls : list FuncDecl) : File :=
  mkFile (mkIdent 9 "example") (map D_FuncDecl decls).

Definition pass (decls : list FuncDecl) : Pass := mkPass [file decls] [].

Definition cond (p : token.Pos) : Expr :=
  E_BinaryExpr (selector (ident p "r") (p + 2) "Method") (lit (p + 12) "POST").

Definition ifStmt (p : token.Pos) (body : list Stmt) : Stmt :=
  S_IfStmt p None (cond (p + 3)) (block (p + 22) body) None.

Definition case (p : token.Pos) (v : string) (body : list Stmt) : Stmt :=
  S_CaseClause p [lit (p + 5) v] body.

Definition switch (p : token.Pos) (arms : list Stmt) : Stmt :=
  S_SwitchStmt p None (Some (selector (ident (p + 7) "r") (p + 9) "Method"))
               (block (p + 16) arms).

Definition serve (p : token.Pos) : Stmt :=
  S_ExprStmt (call (selector (ident p "handler") (p + 8) "ServeHTTP")
                   [ident (p + 18) "w"; ident (p + 21) "r"]).

(** The outcome of [run] on a pass: the diagnostics, or [None] on a panic. *)
Definition diagnostics (p : Pass) : option (list Diagnostic) :=
  match run p with
  | Ok (_, p') => Some (Reported p')
  | Panic => None
  end.

Definition at_ (p : token.Pos) : Diagnostic := mkDiagnostic p message.

(** testdata/src/example/example.go *)
Definition BadMiddleware : FuncDecl :=
  middleware 100 "BadMiddleware"
    [ifStmt 200 [writeHeader 230 "401"; write 270 "Unauthorized"]; serve 310].

Definition GoodMiddleware : FuncDecl :=
  middleware 400 "GoodMiddleware"
    [ifStmt 500 [writeHeader 530 "401"; S_ReturnStmt 570 []]; serve 610].

Definition BadMiddlewareMultiple : FuncDecl :=
  middleware 700 "BadMiddlewareMultiple"
    [switch 800
       [case 820 "GET" [writeHeader 835 "200"; write 870 "OK"];
        case 900 "POST" [writeHeader 915 "201"; write 950 "Created"];
        S_CaseClause 980 [] [writeHeader 995 "405"; S_ReturnStmt 1030 []]]].

Definition BadNestedIf : FuncDecl :=
  middleware 1100 "BadNestedIf"
    [ifStmt 1200 [ifStmt 1230 [writeHeader 1260 "415"; write 1300 "Only JSON"]];
     serve 1350].

Definition GoodNestedIf : FuncDecl :=
  middleware 1400 "GoodNestedIf"
    [ifStmt 1500 [ifStmt 1530 [writeHeader 1560 "415"; S_ReturnStmt 1600 []]];
     serve 1650].

(** [func NotAMiddleware(w http.ResponseWriter, r *http.Request) { ... }] *)
Definition NotAMiddleware : FuncDecl :=
  funcDecl 1700 "NotAMiddleware"
    (fields 1720
       [param 1721 ["w"] (qualified 1723 "http" "ResponseWriter");
        param 1744 ["r"] (E_StarExpr 1746 (qualified 1747 "http" "Request"))])
    None
    (Some [writeHeader 1770 "200"; write 1800 "This should not be checked"]).

(** [func MiddlewareWithoutHandlerFunc(handler http.Handler) http.Handler {
       return handler }] *)
Definition MiddlewareWithoutHandlerFunc : FuncDecl :=
  funcDecl 1900 "MiddlewareWithoutHandlerFunc"
    (fields 1920 [param 1921 ["handler"] (qualified 1929 "http" "Handler")])
    (fields token.NoPos [param 1943 [] (qualified 1943 "http" "Handler")])
    (Some [S_ReturnStmt 1962 [ident 1969 "handler"]]).

Definition example_go : list FuncDecl :=
  [BadMiddleware; GoodMiddleware; BadMiddlewareMultiple; BadNestedIf;
   GoodNestedIf; NotAMiddleware; MiddlewareWithoutHandlerFunc].

(** [if ... { w.WriteHeader(401); w.Write(..) }; return]: the return follows
    the [if], not the call. *)
Definition rejectCall : Expr := method 230 "w" "WriteHeader" "401".

Definition reject : list Stmt :=
  [S_ExprStmt rejectCall; write 270 "Unauthorized"].

Definition guardThenReturn : BlockStmt :=
  block 160 [ifStmt 200 reject; S_ReturnStmt 310 []].

(** The signature [(handler http.Handler) http.Handler] at [p]. *)
Definition handlerParam (p : token.Pos) : option FieldList :=
  fields p [param (p + 1) ["handler"] (qualified (p + 9) "http" "Handler")].

Definition handlerResult (p : token.Pos) : option FieldList :=
  fields token.NoPos [param p [] (qualified p "http" "Handler")].

(** Scenarios of the specification. *)
Definition scenario1 : FuncDecl :=
  middleware 100 "Scenario1" [writeHeader 230 "401"; write 270 "x"].

Definition scenario2 : FuncDecl :=
  middleware 100 "Scenario2" [writeHeader 230 "401"; S_ReturnStmt 270 []].

Definition scenario3 : FuncDecl :=
  middleware 100 "Scenario3"
    [ifStmt 200 [ifStmt 230 [writeHeader 260 "415"; write 300 ".."]]].

Definition scenario4 : FuncDecl :=
  middleware 100 "Scenario4"
    [switch 200
       [case 220 "GET" [writeHeader 235 "200"; write 270 ".."];
        case 300 "POST" [writeHeader 315 "201"; S_ReturnStmt 350 []]]].

Definition scenario5 : FuncDecl :=
  middleware 100 "Scenario5" [writeHeader 230 "200"].

(** [func Scenario6a(handler http.Handler) (http.Handler, error) { ... }]
    and [func Scenario6b(handler http.Handler) { ... }] *)
Definition scenario6a : FuncDecl :=
  funcDecl 100 "Scenario6a" (handlerParam 120)
    (fields 143 [param 144 [] (qualified 144 "http" "Handler");
                 param 158 [] (ident 158 "error")])
    (Some [S_ReturnStmt 170 [handlerFunc 177 [writeHeader 230 "200"];
                             ident 260 "nil"]]).

Definition scenario6b : FuncDecl :=
  funcDecl 100 "Scenario6b" (handlerParam 120) None
    (Some [S_ExprStmt (handlerFunc 177 [writeHeader 230 "200"])]).

(** [select { case <-done: w.WriteHeader(504); w.Write("timeout") }] in a
    middleware, and the same statements in the arm of a [switch]. *)
Definition timeoutCall : Expr := method 2130 "w" "WriteHeader" "504".

Definition timeout : list Stmt :=
  [S_ExprStmt timeoutCall; write 2170 "timeout"].

Definition commClause : Stmt :=
  S_CommClause 2110 (Some (S_ExprStmt (E_UnaryExpr 2115 (ident 2117 "done"))))
               timeout.

Definition SelectMiddleware : FuncDecl :=
  middleware 2000 "SelectMiddleware"
    [S_SelectStmt 2100 (block 2107 [commClause])].

Definition SwitchMiddleware : FuncDecl :=
  middleware 2000 "SwitchMiddleware"
    [S_SwitchStmt 2100 None None (block 2107 [S_CaseClause 2110 [] timeout])].

(** [func NoParam() http.Handler {
       return http.HandlerFunc(func(...) {
         w.WriteHeader(200); w.Write("OK") }) }] *)
Definition NoParam : FuncDecl :=
  funcDecl 2300 "NoParam" (fields 2312 []) (handlerResult 2315)
    (Some [S_ReturnStmt 2330
             [handlerFunc 2337 [writeHeader 2400 "200"; write 2430 "OK"]]]).

(** [func Pair(handler http.Handler) (a, b http.Handler) {
       return http.HandlerFunc(func(...) { w.WriteHeader(200); w.Write("OK") }),
              handler }] *)
Definition Pair : FuncDecl :=
  funcDecl 2500 "Pair" (handlerParam 2509)
    (fields 2540 [mkField [mkIdent 2541 "a"; mkIdent 2544 "b"]
                          (Some (qualified 2546 "http" "Handler")) None])
    (Some [S_ReturnStmt 2562
             [handlerFunc 2569 [writeHeader 2640 "200"; write 2670 "OK"];
              ident 2700 "handler"]]).

(** [func External(handler http.Handler) http.Handler], a declaration
    without a body (implemented outside Go). *)
Definition External : FuncDecl :=
  funcDecl 2800 "External" (handlerParam 2813) (handlerResult 2836) None.

(** [func Chain(handler http.Handler) http.Handler {
       var fallback = http.HandlerFunc(func(...) { w.WriteHeader(404) })
       return http.HandlerFunc(func(...) {
         if ... { w.WriteHeader(401); w.Write("x") }
         handler.ServeHTTP(w, r) }) }] *)
Definition fallbackBody : list Stmt := [writeHeader 3040 "404"].

Definition guardBody : list Stmt :=
  [ifStmt 3140 [writeHeader 3170 "401"; write 3200 "x"]; serve 3240].

Definition chainBody : BlockStmt :=
  block 2960
    [S_DeclStmt
       (mkGenDecl 2962
          [ValueSpec [mkIdent 2966 "fallback"] None
                     [handlerFunc 2977 fallbackBody]]);
     S_ReturnStmt 3070 [handlerFunc 3077 guardBody]].

Definition Chain : FuncDecl :=
  mkFuncDecl None (mkIdent 2905 "Chain")
    (mkFuncType 2900 None (handlerParam 2910) (handlerResult 2933))
    (Some chainBody).

(** An adapter call inside the closure of another:
    [h := http.HandlerFunc(func(...) { w.WriteHeader(500) })]. *)
Definition Nested : FuncDecl :=
  middleware 3300 "Nested"
    [S_AssignStmt [ident 3400 "h"] [handlerFunc 3405 [writeHeader 3470 "500"]]].

(** Statements that hold a function literal [func() { w.WriteHeader(500) }]
    or a labeled call. *)
Definition recoverLit : Expr :=
  E_FuncLit (mkFuncType 3600 None (fields 3604 []) None)
            (block 3607 [writeHeader 3610 "500"]).

Definition deferStmt : Stmt := S_DeferStmt 3594 (mkCallExpr recoverLit []).
Definition goStmt : Stmt := S_GoStmt 3597 (mkCallExpr recoverLit []).
Definition declStmt : Stmt :=
  S_DeclStmt (mkGenDecl 3590 [ValueSpec [mkIdent 3594 "f"] None [recoverLit]]).
Definition assignStmt : Stmt := S_AssignStmt [ident 3595 "f"] [recoverLit].
Definition labeledStmt : Stmt :=
  S_LabeledStmt (mkIdent 3600 "done") (writeHeader 3610 "500").

End Go.

(* ================================================================== *)
(** ** Further notions used by the properties *)

(** What [visitFuncDecl] reports on a function declaration taken alone. *)
Definition reportedAlone (funcDecl : FuncDecl) : list Diagnostic :=
  match visitFuncDecl funcDecl emptyPass with
  | Ok (_, pass) => Reported pass
  | Panic => []
  end.

(** A function declaration the matcher accepts and that has no body. *)
Definition matchedWithoutBody (funcDecl : FuncDecl) : Prop :=
  isMiddlewarePattern funcDecl = true /\ FuncBody funcDecl = None.

Definition isCaseClause (s : Stmt) : bool :=
  match s with
  | S_CaseClause _ _ _ => true
  | _ => false
  end.

Definition caseBody (s : Stmt) : list Stmt :=
  match s with
  | S_CaseClause _ _ body => body
  | _ => []
  end.

(** The type expression [http.Handler], wherever it stands. *)
Definition httpHandlerAt (pos pos' : token.Pos) : Expr :=
  E_SelectorExpr (E_Ident (mkIdent pos "http")) (mkIdent pos' "Handler").

Module GoMore.

Local Open Scope Z_scope.
Local Open Scope string_scope.

(** [for ... { w.WriteHeader(401); w.Write(..) }] and
    [for ... range ... { w.WriteHeader(401); w.Write(..) }]. *)
Definition forLoop : Stmt :=
  S_ForStmt 4000 None (Some (Go.cond 4004)) None (Go.block 4020 Go.reject).

Definition rangeLoop : Stmt :=
  S_RangeStmt 4100 (Some (Go.ident 4104 "k")) None (Go.ident 4115 "headers")
              (Go.block 4123 Go.reject).

(** [w.WriteHeader(200); ; return]: an empty statement before the return. *)
Definition okCall : Expr := Go.method 4200 "w" "WriteHeader" "200".

Definition emptyThenReturn : BlockStmt :=
  Go.block 4190 [S_ExprStmt okCall; S_EmptyStmt 4220; S_ReturnStmt 4222 []].

(** Two parts of a closure body. *)
Definition part1 : list Stmt := [Go.ifStmt 200 Go.reject].
Definition part2 : list Stmt := [Go.writeHeader 4300 "500"].

(** The arms of [BadMiddlewareMultiple]. *)
Definition arms : list Stmt :=
  [Go.case 820 "GET" [Go.writeHeader 835 "200"; Go.write 870 "OK"];
   Go.case 900 "POST" [Go.writeHeader 915 "201"; Go.write 950 "Created"];
   S_CaseClause 980 [] [Go.writeHeader 995 "405"; S_ReturnStmt 1030 []]].

(** [if ... { w.WriteHeader(401); w.Write(..) } else if ... {
       w.WriteHeader(403) } else { w.WriteHeader(500); return }]. *)
Definition elseBlock : Stmt :=
  S_BlockStmt
    (Go.block 4480 [Go.writeHeader 4490 "500"; S_ReturnStmt 4520 []]).

Definition elseIf : Stmt :=
  S_IfStmt 4400 None (Go.cond 4403) (Go.block 4422 [Go.writeHeader 4430 "403"])
           (Some elseBlock).

End GoMore.

(* ================================================================== *)
(** * Properties *)

(** The analyzer on the repository's test data reports what the [want]
    comments there ask for. *)
Example run_example_go :
  Go.diagnostics (Go.pass Go.example_go)
  = Some (map Go.at_ [230; 835; 915; 1260]%Z).
Proof. vm_compute. reflexivity. Qed.

Lemma Stmt_descent_rect (P : Stmt -> Prop) :
  (forall s,
      Forall P (stmtsOf (scannedList s)) -> holdsOn P (elseBranch s) -> P s) ->
  forall s, P s.
Proof.
  intros step.
  fix IH 1.
  intros s. apply step.
  - destruct s; simpl; try apply Forall_nil; apply (Forall_all P IH).
  - destruct s; simpl; try exact I.
    destruct Else as [e|]; simpl; [apply IH | exact I].
Qed.

Lemma Stmt_descent_ind (P : Stmt -> Prop) :
  (forall s,
      (forall l x, scannedList s = Some l -> In x l -> P x) ->
      (forall e, elseBranch s = Some e -> P e) ->
      P s) ->
  forall s, P s.
Proof.
  intros step. apply Stmt_descent_rect. intros s Hl He. apply step.
  - intros l x E Hx. rewrite E in Hl. simpl in Hl.
    rewrite Forall_forall in Hl. auto.
  - intros e E. rewrite E in He. exact He.
Qed.

Lemma addDiags_nil pass : addDiags pass [] = pass.
Proof. destruct pass; unfold addDiags; simpl. now rewrite app_nil_r. Qed.

Lemma addDiags_app pass ds1 ds2 :
  addDiags (addDiags pass ds1) ds2 = addDiags pass (ds1 ++ ds2).
Proof. unfold addDiags; simpl. now rewrite app_assoc. Qed.

Lemma Reportf_addDiags pass pos msg :
  Reportf pass pos msg = addDiags pass [mkDiagnostic pos msg].
Proof. reflexivity. Qed.

Lemma forRangeFrom_addDiags (A : Type) (body : nat -> A -> Pass -> Pass)
      (d : nat -> A -> list Diagnostic) (l : list A) :
  (forall i x pass, In x l -> body i x pass = addDiags pass (d i x)) ->
  forall i pass,
    forRangeFrom body i l pass
    = addDiags pass (flat_map (fun ix => d (fst ix) (snd ix)) (indexed i l)).
Proof.
  unfold indexed.
  induction l as [|x l IHl]; intros Hbody i pass; simpl.
  - now rewrite addDiags_nil.
  - rewrite Hbody by (now left).
    rewrite IHl by (intros; apply Hbody; now right).
    now rewrite addDiags_app.
Qed.

(** One iteration of the scanning loop, which the source writes out three
    times, reports [violationAt] and then what the statement nests. *)
Lemma scan_step (l : list Stmt) (i : nat) (stmt : Stmt) (pass : Pass) :
  match stmt with
  | S_ExprStmt x =>
      if IsWriteHeaderCall x then
        if negb (IsFollowedByReturn l i)
        then Reportf pass (ExprPos x) message
        else pass
      else pass
  | _ => pass
  end = addDiags pass (violationAt l i stmt).
Proof.
  destruct stmt; simpl; try (now rewrite addDiags_nil).
  destruct (IsWriteHeaderCall X); simpl; [|now rewrite addDiags_nil].
  destruct (IsFollowedByReturn l i); simpl; [now rewrite addDiags_nil|].
  reflexivity.
Qed.

Lemma scan_addDiags (l0 l : list Stmt) (pass : Pass) :
  (forall x, In x l -> forall p,
        checkNestedWriteHeader x p = addDiags p (nestedDiags x)) ->
  forRange
    (fun i stmt pass =>
       let pass :=
         match stmt with
         | S_ExprStmt x =>
             if IsWriteHeaderCall x then
               if negb (IsFollowedByReturn l0 i)
               then Reportf pass (ExprPos x) message
               else pass
             else pass
         | _ => pass
         end in
       checkNestedWriteHeader stmt pass) l pass
  = addDiags pass
      (flat_map
         (fun ix => violationAt l0 (fst ix) (snd ix) ++ nestedDiags (snd ix))
                (indexed 0 l)).
Proof.
  intros IH. unfold forRange.
  apply (forRangeFrom_addDiags _
           (fun i x => violationAt l0 i x ++ nestedDiags x)).
  intros i x p Hx. cbv zeta. rewrite scan_step, (IH x Hx).
  apply addDiags_app.
Qed.

Lemma checkNestedWriteHeader_shape (s : Stmt) :
  forall pass, checkNestedWriteHeader s pass = addDiags pass (shapeDiags s).
Proof.
  induction s as [s IHl IHe] using Stmt_descent_ind.
  assert (frame : forall x, (exists l, scannedList s = Some l /\ In x l) \/
                            elseBranch s = Some x ->
                            forall p, checkNestedWriteHeader x p
                                      = addDiags p (nestedDiags x)).
  { intros x Hx p.
    assert (H : forall q,
               checkNestedWriteHeader x q = addDiags q (shapeDiags x)).
    { destruct Hx as [(l & E & Hin)|E]; eauto. }
    unfold nestedDiags. rewrite (H emptyPass), H. reflexivity. }
  intros pass. unfold shapeDiags.
  destruct s; simpl; try (now rewrite addDiags_nil);
    try (rewrite app_nil_r; apply scan_addDiags;
         intros x Hx; apply frame; left; simpl; eauto).
  rewrite scan_addDiags by (intros x Hx; apply frame; left; simpl; eauto).
  destruct Else as [e|]; simpl.
  - rewrite (frame e) by (now right). apply addDiags_app.
  - now rewrite app_nil_r.
Qed.

Lemma nestedDiags_shape (s : Stmt) : nestedDiags s = shapeDiags s.
Proof.
  unfold nestedDiags. now rewrite checkNestedWriteHeader_shape.
Qed.

Lemma checkNestedWriteHeader_diags (s : Stmt) (pass : Pass) :
  checkNestedWriteHeader s pass = addDiags pass (nestedDiags s).
Proof.
  rewrite nestedDiags_shape. apply checkNestedWriteHeader_shape.
Qed.

Lemma checkBlockForWriteHeader_diags (b : BlockStmt) (pass : Pass) :
  checkBlockForWriteHeader (Some b) pass
  = addDiags pass (scanDiags (BlockList b)).
Proof.
  unfold checkBlockForWriteHeader, checkBlockForWriteHeader_.
  apply scan_addDiags. intros; apply checkNestedWriteHeader_diags.
Qed.

Lemma checkHandlerBody_diags (b : BlockStmt) (pass : Pass) :
  checkHandlerBody (Some b) pass
  = Ok (tt, addDiags pass (scanDiags (BlockList b))).
Proof.
  unfold checkHandlerBody. f_equal. f_equal.
  apply scan_addDiags. intros; apply checkNestedWriteHeader_diags.
Qed.

Lemma IsFollowedByReturn_spec (l : list Stmt) (i : nat) :
  IsFollowedByReturn l i = true <-> returnFollows l i.
Proof.
  unfold IsFollowedByReturn, returnFollows. split.
  - destruct (Nat.leb (List.length l) (i + 1)); [discriminate|].
    destruct (nth_error l (i + 1)) as [s|]; [|discriminate].
    intros H. exists s. split; [reflexivity|].
    destruct s; simpl; congruence.
  - intros (s & E & R).
    assert (Hlen : i + 1 < List.length l).
    { apply nth_error_Some. congruence. }
    apply Nat.leb_gt in Hlen. rewrite Hlen, E.
    destruct s; simpl in R; congruence.
Qed.

Lemma In_violationAt (l : list Stmt) (i : nat) (s : Stmt) (d : Diagnostic) :
  In d (violationAt l i s) <->
  exists x, s = S_ExprStmt x /\ IsWriteHeaderCall x = true /\
            ~ returnFollows l i /\ d = diagnosticOf x.
Proof.
  pose proof (IsFollowedByReturn_spec l i) as F.
  unfold violationAt. split.
  - destruct s; simpl; try contradiction.
    destruct (IsWriteHeaderCall X) eqn:W; simpl; [|contradiction].
    destruct (IsFollowedByReturn l i) eqn:R; simpl; [contradiction|].
    intros [<-|[]]. exists X. repeat split; try congruence.
    intros H. apply F in H. discriminate.
  - intros (x & -> & W & R & ->). rewrite W.
    destruct (IsFollowedByReturn l i); simpl; [|now left].
    exfalso. apply R, F. reflexivity.
Qed.

Lemma In_indexed (A : Type) (l : list A) (k i : nat) (x : A) :
  In (i, x) (indexed k l) <-> k <= i /\ nth_error l (i - k) = Some x.
Proof.
  unfold indexed. revert k.
  induction l as [|a l IHl]; intros k; simpl.
  - split; [contradiction|]. intros [_ H]. now destruct (i - k).
  - rewrite IHl. split.
    + intros [E|[Hk E]].
      * injection E as <- <-. rewrite Nat.sub_diag. auto.
      * split; [lia|]. replace (i - k) with (S (i - S k)) by lia. exact E.
    + intros [Hk E]. destruct (Nat.eq_dec k i) as [<-|Hne].
      * rewrite Nat.sub_diag in E. simpl in E. left. congruence.
      * right. split; [lia|].
        replace (i - k) with (S (i - S k)) in E by lia. exact E.
Qed.

Lemma In_scanDiags (l : list Stmt) (d : Diagnostic) :
  In d (scanDiags l) <->
  (exists i x, violation l i x d) \/ (exists s, In s l /\ In d (nestedDiags s)).
Proof.
  unfold scanDiags. rewrite in_flat_map. split.
  - intros ([i s] & Hix & Hd). cbn [fst snd] in Hd.
    apply In_indexed in Hix. destruct Hix as [_ Hnth].
    rewrite Nat.sub_0_r in Hnth.
    apply in_app_or in Hd. destruct Hd as [Hd|Hd].
    + left. apply In_violationAt in Hd.
      destruct Hd as (x & -> & W & R & ->).
      exists i, x. repeat split; assumption.
    + right. exists s. split; [eapply nth_error_In; eauto | assumption].
  - intros [(i & x & (Hnth & W) & R & ->)|(s & Hs & Hd)].
    + exists (i, S_ExprStmt x). split.
      * apply In_indexed. rewrite Nat.sub_0_r. split; [lia | assumption].
      * cbn [fst snd]. apply in_or_app. left. apply In_violationAt.
        exists x. repeat split; assumption.
    + apply In_nth_error in Hs. destruct Hs as [i Hi].
      exists (i, s). split.
      * apply In_indexed. rewrite Nat.sub_0_r. split; [lia | assumption].
      * cbn [fst snd]. apply in_or_app. now right.
Qed.

(** Soundness and completeness of the descent: a diagnostic is reported
    exactly for the violations in the lists the descent reaches. *)
Lemma In_nestedDiags (s : Stmt) :
  forall d, In d (nestedDiags s) <->
            exists l i x, ScannedBy s l /\ violation l i x d.
Proof.
  induction s as [s IHl IHe] using Stmt_descent_ind.
  intros d. rewrite nestedDiags_shape. unfold shapeDiags.
  rewrite in_app_iff. split.
  - intros [H|H].
    + destruct (scannedList s) as [l0|] eqn:E; [|contradiction].
      apply In_scanDiags in H. destruct H as [(i & x & V)|(s' & Hs' & H)].
      * exists l0, i, x. split; [|exact V].
        eapply SB_list; [exact E | apply SF_here].
      * apply (IHl l0 s' eq_refl Hs') in H. destruct H as (l & i & x & Sc & V).
        exists l, i, x. split; [|exact V].
        eapply SB_list; [exact E | eapply SF_nested; eauto].
    + destruct (elseBranch s) as [e|] eqn:E; [|contradiction].
      apply (IHe e eq_refl) in H. destruct H as (l & i & x & Sc & V).
      exists l, i, x. split; [|exact V]. eapply SB_else; eauto.
  - intros (l & i & x & Sc & V).
    inversion Sc as [? l0 ? E Fr|? e ? E Sc']; subst.
    + left. rewrite E. apply In_scanDiags.
      inversion Fr as [|? s' ? Hs' Sc']; subst.
      * left. eauto.
      * right. exists s'. split; [assumption|].
        apply (IHl l0 s' E Hs'). eauto.
    + right. rewrite E. apply (IHe e E). eauto.
Qed.

Lemma In_scanDiags_reached (l0 : list Stmt) (d : Diagnostic) :
  In d (scanDiags l0) <-> exists l i x, ScannedFrom l0 l /\ violation l i x d.
Proof.
  rewrite In_scanDiags. split.
  - intros [(i & x & V)|(s & Hs & H)].
    + exists l0, i, x. split; [apply SF_here | exact V].
    + apply In_nestedDiags in H. destruct H as (l & i & x & Sc & V).
      exists l, i, x. split; [eapply SF_nested; eauto | exact V].
  - intros (l & i & x & Fr & V). inversion Fr as [|? s ? Hs Sc]; subst.
    + left. eauto.
    + right. exists s. split; [assumption|]. apply In_nestedDiags. eauto.
Qed.

(* ------------------------------------------------------------------ *)
(** ** The walk of [run] *)

Lemma Tree_kids_ind (P : Tree -> Prop) :
  (forall n kids, Forall P kids -> P (T n kids)) -> forall t, P t.
Proof.
  intros step. fix IH 1. intros [n kids]. apply step.
  apply (Forall_all P IH).
Qed.

Lemma forEach_addDiags (A : Type) (g : A -> M Pass unit)
      (d : A -> list Diagnostic) (l : list A) :
  Forall (fun x => forall pass, g x pass = Ok (tt, addDiags pass (d x))) l ->
  forall pass, forEach g l pass = Ok (tt, addDiags pass (flat_map d l)).
Proof.
  induction 1 as [|x l Hx _ IHl]; intros pass; simpl.
  - unfold ret. now rewrite addDiags_nil.
  - unfold bind. rewrite Hx, IHl. now rewrite addDiags_app.
Qed.

Lemma forEach_app (St A : Type) (g : A -> M St unit) (l1 l2 : list A) (s : St) :
  forEach g (l1 ++ l2) s = (forEach g l1 ;; forEach g l2) s.
Proof.
  revert s. induction l1 as [|x l1 IHl]; intros s; simpl.
  - reflexivity.
  - unfold bind. destruct (g x s) as [[[] s']|]; [|reflexivity].
    rewrite IHl. reflexivity.
Qed.

Lemma flat_map_flat_map (A B C : Type) (f : B -> list C) (g : A -> list B)
      (l : list A) :
  flat_map f (flat_map g l) = flat_map (fun x => flat_map f (g x)) l.
Proof.
  induction l as [|x l IHl]; simpl; [reflexivity|].
  now rewrite flat_map_app, IHl.
Qed.

Lemma findHandlerFunc_node (n : Node) (pass : Pass) :
  findHandlerFunc (V n) pass = Ok (true, addDiags pass (nodeDiags n)).
Proof.
  unfold nodeDiags, adapterBody, findHandlerFunc.
  destruct n as [e| | | | |]; try (now rewrite addDiags_nil).
  destruct e; try (now rewrite addDiags_nil).
  unfold bind, ret.
  destruct (isHandlerFuncCall call); [|now rewrite addDiags_nil].
  destruct (Args call) as [|a args]; [now rewrite addDiags_nil|].
  destruct a; try (now rewrite addDiags_nil).
  rewrite checkHandlerBody_diags. simpl. now rewrite app_nil_r.
Qed.

Lemma WalkTree_findHandlerFunc (t : Tree) :
  forall pass,
    WalkTree findHandlerFunc t pass
    = Ok (tt, addDiags pass (flat_map nodeDiags (nodes t))).
Proof.
  induction t as [n kids IH] using Tree_kids_ind. intros pass.
  cbn [WalkTree nodes flat_map]. unfold bind at 1. rewrite findHandlerFunc_node.
  unfold bind at 1.
  rewrite (forEach_addDiags (WalkTree findHandlerFunc)
             (fun k => flat_map nodeDiags (nodes k)) IH).
  unfold bind, ret. simpl.
  rewrite addDiags_app. now rewrite <- flat_map_flat_map.
Qed.

Lemma checked_bodies_diags (bodies : list BlockStmt) (pass : Pass) :
  forEach (fun b => checkHandlerBody (Some b)) bodies pass
  = Ok (tt, addDiags pass (flat_map (fun b => scanDiags (BlockList b)) bodies)).
Proof.
  apply forEach_addDiags. apply Forall_forall. intros b _ p.
  apply checkHandlerBody_diags.
Qed.

Lemma visitFuncDecl_diags (funcDecl : FuncDecl) (pass : Pass) :
  visitFuncDecl funcDecl pass
  = match funcDeclDiags funcDecl with
    | Some ds => Ok (tt, addDiags pass ds)
    | None => Panic
    end.
Proof.
  unfold visitFuncDecl, funcDeclDiags.
  destruct (isMiddlewarePattern funcDecl); cbn [negb].
  - destruct (FuncBody funcDecl) as [body|]; cbn [blockNode].
    + unfold Inspect, Walk. rewrite WalkTree_findHandlerFunc.
      unfold adapterBodies. now rewrite flat_map_flat_map.
    + reflexivity.
  - unfold ret. now rewrite addDiags_nil.
Qed.

Lemma forEach_diags (decls : list FuncDecl) (pass : Pass) :
  forEach visitFuncDecl decls pass
  = match runDiags decls with
    | Some ds => Ok (tt, addDiags pass ds)
    | None => Panic
    end.
Proof.
  revert pass. induction decls as [|d decls IH]; intros pass; simpl.
  - unfold ret. now rewrite addDiags_nil.
  - unfold bind. rewrite visitFuncDecl_diags.
    destruct (funcDeclDiags d) as [ds|]; [|reflexivity].
    rewrite IH. destruct (runDiags decls) as [ds'|]; [|reflexivity].
    now rewrite addDiags_app.
Qed.

Lemma Preorder_FuncDecl_funcDecls (St : Type) (f : FuncDecl -> M St unit)
      (files : list File) (s : St) :
  Preorder_FuncDecl files f s = forEach f (funcDecls files) s.
Proof.
  unfold Preorder_FuncDecl, funcDecls. revert s.
  induction files as [|file files IH]; intros s; simpl; [reflexivity|].
  rewrite forEach_app. unfold bind.
  assert (E : forall ds s0,
             forEach (fun d => match d with
                               | D_FuncDecl funcDecl => f funcDecl
                               | _ => ret tt
                               end) ds s0
             = forEach f (flat_map (fun d => match d with
                                             | D_FuncDecl funcDecl => [funcDecl]
                                             | _ => []
                                             end) ds) s0).
  { induction ds as [|d ds IHd]; intros s0; simpl; [reflexivity|].
    destruct d; simpl; unfold bind; simpl; try apply IHd.
    destruct (f d s0) as [[[] s1]|]; [apply IHd | reflexivity]. }
  rewrite E. destruct (forEach f _ s) as [[[] s1]|]; [apply IH | reflexivity].
Qed.

Lemma run_diags (pass : Pass) :
  run pass
  = match runDiags (funcDecls (Files pass)) with
    | Some ds => Ok (tt, addDiags pass ds)
    | None => Panic
    end.
Proof.
  unfold run. rewrite Preorder_FuncDecl_funcDecls. apply forEach_diags.
Qed.

(* ------------------------------------------------------------------ *)
(** ** The adjacency rule *)

Lemma handlerBodyDiags_scan (body : BlockStmt) :
  handlerBodyDiags body = scanDiags (BlockList body).
Proof.
  unfold handlerBodyDiags. now rewrite checkHandlerBody_diags.
Qed.

Lemma checkHandlerBody_reports (body : BlockStmt) (pass : Pass) :
  checkHandlerBody (Some body) pass
  = Ok (tt, addDiags pass (handlerBodyDiags body)).
Proof.
  rewrite handlerBodyDiags_scan. apply checkHandlerBody_diags.
Qed.

(** Every violation in a list the scan reaches is reported. *)
Lemma violation_reported (body : BlockStmt) (l : list Stmt) (i : nat)
      (x : Expr) :
  ScannedFrom (BlockList body) l ->
  candidateAt l i x ->
  ~ returnFollows l i ->
  In (diagnosticOf x) (handlerBodyDiags body).
Proof.
  intros Fr C R. rewrite handlerBodyDiags_scan. apply In_scanDiags_reached.
  exists l, i, x. repeat split; assumption || apply C.
Qed.

(** Every diagnostic reported stands at a violation in a list the scan
    reaches. *)
Lemma reported_violation (body : BlockStmt) (d : Diagnostic) :
  In d (handlerBodyDiags body) ->
  exists l i x, ScannedFrom (BlockList body) l /\ violation l i x d.
Proof.
  rewrite handlerBodyDiags_scan. apply In_scanDiags_reached.
Qed.

Lemma last_not_followed (l : list Stmt) (i : nat) :
  i + 1 = List.length l -> ~ returnFollows l i.
Proof.
  intros E (s & H & _).
  assert (i + 1 < List.length l) by (apply nth_error_Some; congruence).
  lia.
Qed.

(** C1. For a candidate statement (an expression statement whose expression
    is a call with selector name WriteHeader) at index [i] of a statement
    list [l] that the scan of a closure body reaches, where the position of
    the candidate is that of no other candidate the scan reaches, a
    diagnostic is reported at the candidate if and only if it is not the
    case that a statement exists at index [i+1] of [l] and is a return.  In
    particular a candidate that is the last statement of its list is
    reported, whatever follows the list in an enclosing or sibling block. *)
Theorem adjacency_rule (body : BlockStmt) (l : list Stmt) (i : nat) (x : Expr) :
  ScannedFrom (BlockList body) l ->
  candidateAt l i x ->
  (forall l' i' x',
      ScannedFrom (BlockList body) l' -> candidateAt l' i' x' ->
      ExprPos x' = ExprPos x -> l' = l /\ i' = i) ->
  (forall pass,
      checkHandlerBody (Some body) pass
      = Ok (tt, addDiags pass (handlerBodyDiags body))) /\
  (In (diagnosticOf x) (handlerBodyDiags body) <-> ~ returnFollows l i) /\
  (i + 1 = List.length l -> In (diagnosticOf x) (handlerBodyDiags body)).
Proof.
  intros Fr C U. split; [|split].
  - apply checkHandlerBody_reports.
  - split.
    + intros H. apply reported_violation in H.
      destruct H as (l' & i' & x' & Fr' & C' & R' & E).
      injection E as E.
      destruct (U l' i' x' Fr' C' (eq_sym E)) as [-> ->]. exact R'.
    + apply violation_reported; assumption.
  - intros E. eapply violation_reported; eauto. now apply last_not_followed.
Qed.

Ltac reached :=
  repeat match goal with
    | H : In _ (_ :: _) |- _ => destruct H as [H|H]; [subst|]
    | H : In _ [] |- _ => destruct H
    | H : scannedList _ = Some _ |- _ =>
        cbn [scannedList BlockList] in H;
        first [discriminate H | injection H as H; subst]
    | H : elseBranch _ = Some _ |- _ =>
        cbn [elseBranch] in H;
        first [discriminate H | injection H as H; subst]
    | H : ScannedFrom ?l0 _ |- _ =>
        tryif is_var l0 then fail else (inversion H; clear H; subst)
    | H : ScannedBy ?s _ |- _ =>
        tryif is_var s then fail else (inversion H; clear H; subst)
    end.

Ltac candidate_cases H :=
  let i := fresh "i" in
  destruct H as [H ?];
  repeat match type of H with
    | nth_error (_ :: _) ?i = _ =>
        destruct i as [|i]; cbn [nth_error] in H;
        [first [discriminate H | injection H as H; subst]|]
    end;
  try match type of H with
    | nth_error [] ?i = _ => destruct i; discriminate H
    end.

Lemma guardThenReturn_reached :
  ScannedFrom (BlockList Go.guardThenReturn) Go.reject.
Proof.
  eapply SF_nested; [left; reflexivity|].
  eapply SB_list; [reflexivity | apply SF_here].
Qed.

Lemma guardThenReturn_candidate : candidateAt Go.reject 0 Go.rejectCall.
Proof. split; reflexivity. Qed.

Lemma guardThenReturn_unique (l' : list Stmt) (i' : nat) (x' : Expr) :
  ScannedFrom (BlockList Go.guardThenReturn) l' -> candidateAt l' i' x' ->
  ExprPos x' = ExprPos Go.rejectCall -> l' = Go.reject /\ i' = 0.
Proof.
  intros Fr C E. cbv in Fr.
  reached; candidate_cases C; try discriminate E; auto.
Qed.

(** A candidate inside an [if]: the return after the [if], in the enclosing
    block, does not count. *)
Lemma adjacency_rule_witness :
  ScannedFrom (BlockList Go.guardThenReturn) Go.reject /\
  candidateAt Go.reject 0 Go.rejectCall /\
  (In (diagnosticOf Go.rejectCall) (handlerBodyDiags Go.guardThenReturn)
   <-> ~ returnFollows Go.reject 0).
Proof.
  split; [exact guardThenReturn_reached|].
  split; [exact guardThenReturn_candidate|].
  exact (proj1 (proj2
    (adjacency_rule Go.guardThenReturn guardThenReturn_reached
       guardThenReturn_candidate guardThenReturn_unique))).
Defined.

(** The scenarios of the specification. *)
Example scenarios_1_to_5 :
  map (fun d => Go.diagnostics (Go.pass [d]))
      [Go.scenario1; Go.scenario2; Go.scenario3; Go.scenario4; Go.scenario5]
  = [Some [Go.at_ 230]; Some []; Some [Go.at_ 260]; Some [Go.at_ 235];
     Some [Go.at_ 230]].
Proof. vm_compute. reflexivity. Qed.

Example scenario_6 :
  Go.diagnostics (Go.pass [Go.scenario6a; Go.scenario6b]) = Some [].
Proof. vm_compute. reflexivity. Qed.

(* ------------------------------------------------------------------ *)
(** ** Shapes the descent does not enter *)

Lemma checkNestedWriteHeader_leaf (s : Stmt) (pass : Pass) :
  isDescentShape s = false -> checkNestedWriteHeader s pass = pass.
Proof. destruct s; simpl; intros H; reflexivity || discriminate H. Qed.

Lemma nestedDiags_leaf (s : Stmt) :
  isDescentShape s = false -> nestedDiags s = [].
Proof.
  intros H. unfold nestedDiags. now rewrite checkNestedWriteHeader_leaf.
Qed.

Lemma violationAt_not_candidate (l : list Stmt) (i : nat) (s : Stmt) :
  isCandidate s = false -> violationAt l i s = [].
Proof.
  destruct s; simpl; try reflexivity. now intros ->.
Qed.

(** C10. A statement that is not an if, plain block, for, range, switch,
    type switch, select or case clause is not descended into: the checker
    leaves the pass as it is, so that a closure body made of such a statement,
    not itself a candidate, yields no diagnostic whatever the statement
    holds. *)
Theorem descent_closed (s : Stmt) :
  isDescentShape s = false ->
  (forall pass, checkNestedWriteHeader s pass = pass) /\
  (isCandidate s = false ->
   forall lbrace pass,
     checkHandlerBody (Some (mkBlockStmt lbrace [s])) pass = Ok (tt, pass)).
Proof.
  intros H. split.
  - intros pass. now apply checkNestedWriteHeader_leaf.
  - intros C lbrace pass. rewrite checkHandlerBody_diags.
    unfold scanDiags. simpl.
    rewrite violationAt_not_candidate, nestedDiags_leaf by assumption.
    simpl. now rewrite addDiags_nil.
Qed.

Lemma descent_closed_witness :
  isDescentShape Go.deferStmt = false /\
  isCandidate Go.deferStmt = false /\
  checkNestedWriteHeader Go.deferStmt emptyPass = emptyPass /\
  checkHandlerBody (Some (Go.block 3500 [Go.deferStmt])) emptyPass
  = Ok (tt, emptyPass).
Proof.
  split; [reflexivity|].
  split; [reflexivity|].
  split.
  - exact (proj1 (@descent_closed Go.deferStmt eq_refl) emptyPass).
  - exact (proj2 (@descent_closed Go.deferStmt eq_refl) eq_refl
             3500%Z emptyPass).
Defined.

(** A defer, a go statement, a declaration, an assignment and a labeled
    statement that hold a WriteHeader call without a return. *)
Example descent_closed_samples :
  map (fun s => handlerBodyDiags (Go.block 3500 [s]))
      [Go.deferStmt; Go.goStmt; Go.declStmt; Go.assignStmt; Go.labeledStmt]
  = [[]; []; []; []; []].
Proof. vm_compute. reflexivity. Qed.

(** The walk of [run], unlike the descent, does reach an adapter call in an
    assignment inside a closure. *)
Example nested_adapter_checked :
  Go.diagnostics (Go.pass [Go.Nested]) = Some [Go.at_ 3470].
Proof. vm_compute. reflexivity. Qed.

(* ------------------------------------------------------------------ *)
(** ** Arms of a switch *)

(** C5. A closure body that is a switch whose first arm holds a WriteHeader
    call followed by a statement that is neither a return nor a candidate
    nor descended into, and whose second arm holds a WriteHeader call
    followed by a return: exactly one diagnostic, at the call of the first
    arm. *)
Theorem switch_arms_independent
        (lbrace switch_ lbrace' case1 case2 return_ : token.Pos)
        (init : option Stmt) (tag : option Expr)
        (list1 list2 results : list Expr)
        (call1 call2 : Expr) (next : Stmt) :
  IsWriteHeaderCall call1 = true ->
  IsWriteHeaderCall call2 = true ->
  isReturnStmt next = false ->
  isCandidate next = false ->
  isDescentShape next = false ->
  handlerBodyDiags
    (mkBlockStmt lbrace
       [S_SwitchStmt switch_ init tag
          (mkBlockStmt lbrace'
             [S_CaseClause case1 list1 [S_ExprStmt call1; next];
              S_CaseClause case2 list2
                           [S_ExprStmt call2; S_ReturnStmt return_ results]])])
  = [diagnosticOf call1].
Proof.
  intros W1 W2 R C D.
  rewrite handlerBodyDiags_scan. unfold scanDiags. cbn -[nestedDiags].
  rewrite nestedDiags_shape. unfold shapeDiags, scanDiags. cbn -[nestedDiags].
  rewrite !nestedDiags_shape. unfold shapeDiags, scanDiags. cbn -[nestedDiags].
  rewrite W1, W2. rewrite (nestedDiags_leaf (S_ExprStmt call1)) by reflexivity.
  rewrite (nestedDiags_leaf (S_ExprStmt call2)) by reflexivity.
  rewrite (nestedDiags_leaf next) by assumption.
  rewrite (nestedDiags_leaf (S_ReturnStmt return_ results)) by reflexivity.
  rewrite (@violationAt_not_candidate _ 1 next) by assumption.
  unfold IsFollowedByReturn. cbn.
  destruct next; simpl in R; try discriminate R; reflexivity.
Qed.

Lemma switch_arms_independent_witness :
  Go.diagnostics (Go.pass [Go.scenario4]) = Some [Go.at_ 235] /\
  handlerBodyDiags
    (Go.block 162
       [Go.switch 200
          [Go.case 220 "GET" [Go.writeHeader 235 "200"; Go.write 270 ".."];
           Go.case 300 "POST" [Go.writeHeader 315 "201"; S_ReturnStmt 350 []]]])
  = [Go.at_ 235].
Proof.
  split; [vm_compute; reflexivity|].
  exact (@switch_arms_independent 162%Z _ _ _ _ _ _ _ _ _ _
           (Go.method 235 "w" "WriteHeader" "200")
           (Go.method 315 "w" "WriteHeader" "201")
           (Go.write 270 "..")
           eq_refl eq_refl eq_refl eq_refl eq_refl).
Defined.

(* ------------------------------------------------------------------ *)
(** ** The two scanning routines *)

Lemma checkBlockForWriteHeader_nil (pass : Pass) :
  checkBlockForWriteHeader None pass = pass.
Proof. reflexivity. Qed.

Lemma checkHandlerBody_nil (pass : Pass) : checkHandlerBody None pass = Panic.
Proof. reflexivity. Qed.

(** C9. On a block that is not nil, [checkHandlerBody] and
    [checkBlockForWriteHeader] leave the pass in the same state: they report
    the same diagnostics, at the same positions, in the same order. *)
Theorem scanning_routines_agree (block : BlockStmt) (pass : Pass) :
  checkHandlerBody (Some block) pass
  = Ok (tt, checkBlockForWriteHeader (Some block) pass).
Proof.
  rewrite checkHandlerBody_diags, checkBlockForWriteHeader_diags. reflexivity.
Qed.

(* ------------------------------------------------------------------ *)
(** ** Select statements *)

(** The clauses of a select are [CommClause] nodes, which the descent has no
    case for: nothing inside a select is scanned. *)
Lemma select_clauses_not_scanned (select_ lbrace : token.Pos)
      (clauses : list Stmt) :
  Forall (fun c => exists case_ comm body, c = S_CommClause case_ comm body)
         clauses ->
  nestedDiags (S_SelectStmt select_ (mkBlockStmt lbrace clauses)) = [].
Proof.
  intros H. rewrite nestedDiags_shape. unfold shapeDiags.
  cbn [scannedList elseBranch BlockList]. rewrite app_nil_r.
  unfold scanDiags, indexed.
  generalize 0. generalize clauses at 1.
  induction H as [|c l (case_ & comm & body & ->) _ IH]; intros l0 k.
  - reflexivity.
  - cbn [List.length seq combine flat_map fst snd].
    rewrite nestedDiags_leaf by reflexivity. apply IH.
Qed.

(** C2 (the code departs from it). A WriteHeader call in a communication
    clause of a select, followed by a statement that is not a return, is not
    reported; the same statements in the arm of a switch are. *)
Theorem select_clause_not_checked :
  candidateAt Go.timeout 0 Go.timeoutCall /\
  ~ returnFollows Go.timeout 0 /\
  Go.diagnostics (Go.pass [Go.SelectMiddleware]) = Some [] /\
  Go.diagnostics (Go.pass [Go.SwitchMiddleware])
  = Some [diagnosticOf Go.timeoutCall].
Proof.
  split; [split; reflexivity|].
  split.
  - intros (s & H & R). simpl in H. injection H as <-. discriminate R.
  - split; vm_compute; reflexivity.
Qed.

(* ------------------------------------------------------------------ *)
(** ** The signature matcher *)

Lemma isMiddlewarePattern_iff (funcDecl : FuncDecl) :
  isMiddlewarePattern funcDecl = true <->
  exists results field,
    Results (FuncDeclType funcDecl) = Some results /\
    FieldListList results = [field] /\
    isHTTPHandler (FieldType field) = true.
Proof.
  unfold isMiddlewarePattern. split.
  - destruct (Results (FuncDeclType funcDecl)) as [results|]; [|discriminate].
    destruct (FieldListList results) as [|field [|f2 l]] eqn:E; simpl;
      try discriminate.
    destruct (isHTTPHandler (FieldType field)) eqn:H; simpl; [|discriminate].
    intros _. exists results, field. auto.
  - intros (results & field & -> & -> & H). simpl. now rewrite H.
Qed.

Lemma isHTTPHandler_iff (expr : option Expr) :
  isHTTPHandler expr = true <->
  exists pos pos', expr = Some (E_SelectorExpr (E_Ident (mkIdent pos "http"))
                                                (mkIdent pos' "Handler")).
Proof.
  unfold isHTTPHandler. split.
  - destruct expr as [[]|]; try discriminate.
    destruct X; try discriminate.
    destruct id as [pos name], Sel as [pos' name']; simpl.
    intros H. apply andb_true_iff in H. destruct H as [H1 H2].
    apply String.eqb_eq in H1, H2. subst. eauto.
  - intros (pos & pos' & ->). reflexivity.
Qed.

(** The matcher reads the result list only. *)
Lemma isMiddlewarePattern_results_only (recv recv' : option FieldList)
      (name name' : Ident) (func func' : token.Pos)
      (tparams tparams' params params' results : option FieldList)
      (body body' : option BlockStmt) :
  isMiddlewarePattern
    (mkFuncDecl recv name (mkFuncType func tparams params results) body)
  = isMiddlewarePattern
      (mkFuncDecl recv' name' (mkFuncType func' tparams' params' results)
                  body').
Proof. reflexivity. Qed.

(** A function declaration the matcher rejects is left alone. *)
Lemma unmatched_not_visited (funcDecl : FuncDecl) (pass : Pass) :
  isMiddlewarePattern funcDecl = false ->
  visitFuncDecl funcDecl pass = Ok (tt, pass).
Proof. unfold visitFuncDecl. now intros ->. Qed.

Lemma unmatched_no_diagnostics (pass : Pass) :
  Forall (fun d => isMiddlewarePattern d = false) (funcDecls (Files pass)) ->
  run pass = Ok (tt, pass).
Proof.
  intros H. unfold run. rewrite Preorder_FuncDecl_funcDecls.
  generalize pass at 2 3.
  induction H as [|d l Hd _ IH]; intros p; simpl; [reflexivity|].
  unfold bind. rewrite unmatched_not_visited by assumption. apply IH.
Qed.

(** C3 (the code departs from it). A function without parameters whose only
    result is http.Handler is matched, and its closure is checked. *)
Theorem parameters_not_examined :
  NumFields (Params (FuncDeclType Go.NoParam)) = 0 /\
  isMiddlewarePattern Go.NoParam = true /\
  Go.diagnostics (Go.pass [Go.NoParam]) = Some [Go.at_ 2400].
Proof. repeat split; vm_compute; reflexivity. Qed.

(** C4 (the code departs from it). A function that declares the two results
    [(a, b http.Handler)] is matched, since they share one entry of the
    result list, and its closure is checked. *)
Theorem grouped_results_matched :
  NumFields (Results (FuncDeclType Go.Pair)) = 2 /\
  isMiddlewarePattern Go.Pair = true /\
  Go.diagnostics (Go.pass [Go.Pair]) = Some [Go.at_ 2640].
Proof. repeat split; vm_compute; reflexivity. Qed.

(* ------------------------------------------------------------------ *)
(** ** Adapter calls *)

(** C6. In a matched function with a body, [checkHandlerBody] runs once on
    the literal body of every adapter call that [ast.Walk] meets below the
    function body, in the order of the walk, and the pass receives the
    diagnostics of all of them. *)
Theorem every_adapter_checked (funcDecl : FuncDecl) (body : BlockStmt)
        (pass : Pass) :
  isMiddlewarePattern funcDecl = true ->
  FuncBody funcDecl = Some body ->
  visitFuncDecl funcDecl pass
  = forEach (fun b => checkHandlerBody (Some b)) (adapterBodies body) pass /\
  visitFuncDecl funcDecl pass
  = Ok (tt, addDiags pass (flat_map handlerBodyDiags (adapterBodies body))).
Proof.
  intros Hm Hb.
  assert (E : visitFuncDecl funcDecl pass
              = Ok (tt, addDiags pass
                          (flat_map (fun b => scanDiags (BlockList b))
                                    (adapterBodies body)))).
  { rewrite visitFuncDecl_diags. unfold funcDeclDiags. now rewrite Hm, Hb. }
  split.
  - rewrite checked_bodies_diags. exact E.
  - rewrite E. do 3 f_equal. apply flat_map_ext. intros b.
    symmetry. apply handlerBodyDiags_scan.
Qed.

Lemma every_adapter_checked_witness :
  isMiddlewarePattern Go.Chain = true /\
  FuncBody Go.Chain = Some Go.chainBody /\
  map (@BlockList Stmt) (adapterBodies Go.chainBody)
  = [Go.fallbackBody; Go.guardBody] /\
  visitFuncDecl Go.Chain emptyPass
  = Ok (tt, addDiags emptyPass
              (flat_map handlerBodyDiags (adapterBodies Go.chainBody))) /\
  flat_map handlerBodyDiags (adapterBodies Go.chainBody)
  = [Go.at_ 3040; Go.at_ 3170].
Proof.
  split; [reflexivity|].
  split; [reflexivity|].
  split; [vm_compute; reflexivity|].
  split.
  - exact (proj2 (@every_adapter_checked Go.Chain Go.chainBody emptyPass
                    eq_refl eq_refl)).
  - vm_compute. reflexivity.
Defined.

(* ------------------------------------------------------------------ *)
(** ** Panics *)

Lemma absent_body_panics (funcDecl : FuncDecl) (pass : Pass) :
  isMiddlewarePattern funcDecl = true ->
  FuncBody funcDecl = None ->
  visitFuncDecl funcDecl pass = Panic.
Proof.
  intros Hm Hb. rewrite visitFuncDecl_diags. unfold funcDeclDiags.
  now rewrite Hm, Hb.
Qed.

(** When every matched function has a body, [run] returns. *)
Lemma run_returns (pass : Pass) :
  Forall (fun d => isMiddlewarePattern d = true -> FuncBody d <> None)
         (funcDecls (Files pass)) ->
  exists ds, run pass = Ok (tt, addDiags pass ds).
Proof.
  intros H. rewrite run_diags.
  assert (E : exists ds, runDiags (funcDecls (Files pass)) = Some ds).
  { induction H as [|d l Hd _ (ds' & IH)]; simpl; [eauto|].
    rewrite IH. unfold funcDeclDiags.
    destruct (isMiddlewarePattern d); [|eauto].
    destruct (FuncBody d); [eauto|]. now destruct Hd. }
  destruct E as (ds & ->). eauto.
Qed.

(** C7 (the code departs from it). On a matched function declared without a
    body, [ast.Inspect] receives a nil block and [run] panics. *)
Theorem absent_body_run_panics :
  isMiddlewarePattern Go.External = true /\
  FuncBody Go.External = None /\
  run (Go.pass [Go.External]) = Panic.
Proof. repeat split; vm_compute; reflexivity. Qed.

(* ------------------------------------------------------------------ *)
(** ** Determinism *)

(** C8. Two runs over the same files, whatever the pass already holds,
    either both panic or both return and report the same diagnostics: the
    same positions and messages, in the same number and order. *)
Theorem run_deterministic (files : list File) (ds1 ds2 : list Diagnostic) :
  match run (mkPass files ds1), run (mkPass files ds2) with
  | Ok (_, pass1), Ok (_, pass2) =>
      exists ds, pass1 = mkPass files (ds1 ++ ds) /\
                 pass2 = mkPass files (ds2 ++ ds)
  | Panic, Panic => True
  | _, _ => False
  end.
Proof.
  rewrite !run_diags. simpl.
  destruct (runDiags (funcDecls files)) as [ds|]; [|exact I].
  exists ds. split; reflexivity.
Qed.

(* ================================================================== *)
(** * Further properties of the code *)

(* ------------------------------------------------------------------ *)
(** ** Lists with their indices *)

Lemma indexed_cons (A : Type) (k : nat) (x : A) (l : list A) :
  indexed k (x :: l) = (k, x) :: indexed (S k) l.
Proof. reflexivity. Qed.

Lemma flat_map_indexed_rebase (A B : Type) (F G : nat -> A -> list B)
      (l : list A) :
  forall k k',
    (forall i x, nth_error l i = Some x -> F (k + i) x = G (k' + i) x) ->
    flat_map (fun ix => F (fst ix) (snd ix)) (indexed k l)
    = flat_map (fun ix => G (fst ix) (snd ix)) (indexed k' l).
Proof.
  induction l as [|a l IH]; intros k k' H; [reflexivity|].
  rewrite !indexed_cons. cbn [flat_map fst snd]. f_equal.
  - specialize (H 0 a eq_refl). now rewrite !Nat.add_0_r in H.
  - apply IH. intros i x Hx. specialize (H (S i) x Hx).
    now rewrite !Nat.add_succ_r in H.
Qed.

Lemma flat_map_indexed_app (A B : Type) (F : nat * A -> list B)
      (l1 l2 : list A) :
  forall k,
    flat_map F (indexed k (l1 ++ l2))
    = flat_map F (indexed k l1) ++ flat_map F (indexed (k + List.length l1) l2).
Proof.
  induction l1 as [|a l1 IH]; intros k.
  - cbn [app List.length]. now rewrite Nat.add_0_r.
  - cbn [app List.length]. rewrite !indexed_cons. cbn [flat_map].
    rewrite IH, Nat.add_succ_r. now rewrite app_assoc.
Qed.

Lemma flat_map_indexed_snd (A B : Type) (G : A -> list B) (l : list A) :
  forall k, flat_map (fun ix => G (snd ix)) (indexed k l) = flat_map G l.
Proof.
  induction l as [|a l IH]; intros k; [reflexivity|].
  rewrite indexed_cons. cbn [flat_map snd]. now rewrite IH.
Qed.

Lemma IsFollowedByReturn_nth (l : list Stmt) (i : nat) :
  IsFollowedByReturn l i
  = match nth_error l (i + 1) with
    | Some (S_ReturnStmt _ _) => true
    | _ => false
    end.
Proof.
  unfold IsFollowedByReturn.
  destruct (Nat.leb (List.length l) (i + 1)) eqn:E; [|reflexivity].
  apply Nat.leb_le in E. apply nth_error_None in E. now rewrite E.
Qed.

(* ------------------------------------------------------------------ *)
(** ** The exported helper and the matcher *)


(** X2. The matcher accepts a function declaration exactly when its result
    list is present and has a single entry whose type is the selector
    [http.Handler] on the identifier [http]; the names in that entry, the
    receiver, the parameters and the body play no part. *)
Theorem isMiddlewarePattern_exactly (funcDecl : FuncDecl) :
  isMiddlewarePattern funcDecl = true <->
  exists opening names tag pos pos',
    Results (FuncDeclType funcDecl)
    = Some (mkFieldList opening
              [mkField names (Some (httpHandlerAt pos pos')) tag]).
Proof.
  rewrite isMiddlewarePattern_iff. split.
  - intros ([opening l] & [names typ tag] & E & El & H).
    simpl in El, H. subst l. apply isHTTPHandler_iff in H.
    destruct H as (pos & pos' & ->).
    exists opening, names, tag, pos, pos'. exact E.
  - intros (opening & names & tag & pos & pos' & E).
    eexists; eexists. split; [exact E|]. split; reflexivity.
Qed.

(* ------------------------------------------------------------------ *)
(** ** Closure bodies *)

(** X3. The scan of a closure body reports nothing if and only if every
    candidate of every list it reaches is followed, in that list, by a
    return. *)
Theorem clean_iff_all_followed (body : BlockStmt) :
  handlerBodyDiags body = [] <->
  forall l i x,
    ScannedFrom (BlockList body) l -> candidateAt l i x -> returnFollows l i.
Proof.
  split.
  - intros E l i x Fr C.
    destruct (IsFollowedByReturn l i) eqn:F.
    + now apply IsFollowedByReturn_spec.
    + assert (H : In (diagnosticOf x) (handlerBodyDiags body)).
      { eapply violation_reported; eauto.
        intros R. apply IsFollowedByReturn_spec in R. congruence. }
      rewrite E in H. destruct H.
  - intros H. destruct (handlerBodyDiags body) as [|d ds] eqn:E; [reflexivity|].
    assert (Hd : In d (handlerBodyDiags body)) by (rewrite E; now left).
    apply reported_violation in Hd.
    destruct Hd as (l & i & x & Fr & C & R & _).
    destruct R. eapply H; eauto.
Qed.

(** X4. The descent reads of a statement only the statement list it scans
    and the else branch: two statements that agree on these (an if, a block,
    a for, a range over the same body) leave the pass in the same state,
    whatever their positions, init statements, conditions or headers. *)
Theorem descent_reads_body_only (s s' : Stmt) (pass : Pass) :
  scannedList s = scannedList s' ->
  elseBranch s = elseBranch s' ->
  checkNestedWriteHeader s pass = checkNestedWriteHeader s' pass.
Proof.
  intros El Ee. rewrite !checkNestedWriteHeader_shape.
  unfold shapeDiags. now rewrite El, Ee.
Qed.

Lemma descent_reads_body_only_witness :
  scannedList GoMore.forLoop = scannedList GoMore.rangeLoop /\
  elseBranch GoMore.forLoop = elseBranch GoMore.rangeLoop /\
  checkNestedWriteHeader GoMore.forLoop emptyPass
  = checkNestedWriteHeader GoMore.rangeLoop emptyPass /\
  Reported (checkNestedWriteHeader GoMore.forLoop emptyPass) = [Go.at_ 230].
Proof.
  split; [reflexivity|].
  split; [reflexivity|].
  split.
  - exact (@descent_reads_body_only GoMore.forLoop GoMore.rangeLoop emptyPass
             eq_refl eq_refl).
  - vm_compute. reflexivity.
Defined.

(** X5. An empty statement is a statement like any other: a WriteHeader
    call followed by an empty statement and then a return is reported.  The
    helper [isEmptyStmt] recognises such statements but the scan does not
    consult it. *)
Theorem empty_statement_not_skipped (lbrace return_ : token.Pos)
        (results : list Expr) (x : Expr) (s : Stmt) :
  IsWriteHeaderCall x = true ->
  isEmptyStmt s = true ->
  handlerBodyDiags
    (mkBlockStmt lbrace [S_ExprStmt x; s; S_ReturnStmt return_ results])
  = [diagnosticOf x].
Proof.
  intros W E. destruct s; try discriminate E.
  rewrite handlerBodyDiags_scan. unfold scanDiags. cbn -[nestedDiags].
  rewrite W. rewrite !nestedDiags_leaf by reflexivity. reflexivity.
Qed.

Lemma empty_statement_not_skipped_witness :
  IsWriteHeaderCall GoMore.okCall = true /\
  isEmptyStmt (S_EmptyStmt 4220) = true /\
  handlerBodyDiags GoMore.emptyThenReturn = [diagnosticOf GoMore.okCall].
Proof.
  split; [reflexivity|].
  split; [reflexivity|].
  exact (@empty_statement_not_skipped 4190%Z 4222%Z [] GoMore.okCall
           (S_EmptyStmt 4220) eq_refl eq_refl).
Defined.

Lemma violationAt_app_left (l0 l2 : list Stmt) (s x : Stmt) (i : nat) :
  isCandidate s = false ->
  nth_error (l0 ++ [s]) i = Some x ->
  violationAt ((l0 ++ [s]) ++ l2) i x = violationAt (l0 ++ [s]) i x.
Proof.
  intros C Hx.
  assert (Hi : i < List.length (l0 ++ [s])).
  { apply nth_error_Some. congruence. }
  rewrite length_app in Hi. cbn [List.length] in Hi.
  destruct (Nat.eq_dec i (List.length l0)) as [->|Hne].
  - rewrite nth_error_app2 in Hx by lia. rewrite Nat.sub_diag in Hx.
    injection Hx as <-. now rewrite !violationAt_not_candidate.
  - unfold violationAt. rewrite !IsFollowedByReturn_nth.
    rewrite (nth_error_app1 (l0 ++ [s]) l2)
      by (rewrite length_app; cbn [List.length]; lia).
    reflexivity.
Qed.

Lemma violationAt_app_right (l1 l2 : list Stmt) (x : Stmt) (i : nat) :
  violationAt (l1 ++ l2) (List.length l1 + i) x = violationAt l2 i x.
Proof.
  unfold violationAt. rewrite !IsFollowedByReturn_nth.
  rewrite nth_error_app2 by lia.
  replace (List.length l1 + i + 1 - List.length l1) with (i + 1) by lia.
  reflexivity.
Qed.

Lemma scanDiags_app (l0 l2 : list Stmt) (s : Stmt) :
  isCandidate s = false ->
  scanDiags ((l0 ++ [s]) ++ l2) = scanDiags (l0 ++ [s]) ++ scanDiags l2.
Proof.
  intros C. unfold scanDiags.
  rewrite (flat_map_indexed_app _ (l0 ++ [s]) l2 0). f_equal.
  - apply (flat_map_indexed_rebase
             (fun i x => violationAt ((l0 ++ [s]) ++ l2) i x ++ nestedDiags x)
             (fun i x => violationAt (l0 ++ [s]) i x ++ nestedDiags x)).
    intros i x Hx. cbn [Nat.add]. f_equal.
    now apply violationAt_app_left.
  - apply (flat_map_indexed_rebase
             (fun i x => violationAt ((l0 ++ [s]) ++ l2) i x ++ nestedDiags x)
             (fun i x => violationAt l2 i x ++ nestedDiags x)).
    intros i x Hx. cbn [Nat.add]. f_equal.
    apply violationAt_app_right.
Qed.

(** X6. The scan is local: where a closure body is cut after a statement
    that is not a candidate, its diagnostics are those of the first part
    followed by those of the second, each scanned as a body of its own. *)
Theorem scan_splits_after_non_candidate (lbrace lbrace1 lbrace2 : token.Pos)
        (before after : list Stmt) (s : Stmt) :
  isCandidate s = false ->
  handlerBodyDiags (mkBlockStmt lbrace ((before ++ [s]) ++ after))
  = handlerBodyDiags (mkBlockStmt lbrace1 (before ++ [s]))
    ++ handlerBodyDiags (mkBlockStmt lbrace2 after).
Proof.
  intros C. rewrite !handlerBodyDiags_scan. cbn [BlockList].
  now apply scanDiags_app.
Qed.

Lemma scan_splits_after_non_candidate_witness :
  isCandidate (Go.ifStmt 200 Go.reject) = false /\
  handlerBodyDiags
    (mkBlockStmt 160 (([] ++ [Go.ifStmt 200 Go.reject]) ++ GoMore.part2))
  = handlerBodyDiags (mkBlockStmt 160 ([] ++ [Go.ifStmt 200 Go.reject]))
    ++ handlerBodyDiags (mkBlockStmt 160 GoMore.part2) /\
  handlerBodyDiags
    (mkBlockStmt 160 (([] ++ [Go.ifStmt 200 Go.reject]) ++ GoMore.part2))
  = [Go.at_ 230; Go.at_ 4300].
Proof.
  split; [reflexivity|].
  split.
  - exact (@scan_splits_after_non_candidate 160%Z 160%Z 160%Z []
             GoMore.part2 (Go.ifStmt 200 Go.reject) eq_refl).
  - vm_compute. reflexivity.
Defined.

Lemma scanDiags_arms (arms : list Stmt) :
  Forall (fun arm => isCaseClause arm = true) arms ->
  scanDiags arms = flat_map (fun arm => scanDiags (caseBody arm)) arms.
Proof.
  intros H. unfold scanDiags at 1.
  rewrite <- (flat_map_indexed_snd
                (fun arm => scanDiags (caseBody arm)) arms 0).
  apply (flat_map_indexed_rebase
           (fun i x => violationAt arms i x ++ nestedDiags x)
           (fun _ x => scanDiags (caseBody x))).
  intros i x Hx. apply nth_error_In in Hx.
  rewrite Forall_forall in H. specialize (H x Hx).
  destruct x; try discriminate H.
  rewrite nestedDiags_shape. unfold shapeDiags. cbn.
  now rewrite app_nil_r.
Qed.

(** X7. The arms of a switch or of a type switch are scanned one by one: a
    closure body that is such a statement, all of whose clauses are case
    clauses, yields the diagnostics of its arms in order, each arm scanned
    as a body of its own. *)
Theorem switch_diagnostics_by_arm (lbrace switch_ lbrace' : token.Pos)
        (init : option Stmt) (tag : option Expr) (assign : Stmt)
        (arms : list Stmt) :
  Forall (fun arm => isCaseClause arm = true) arms ->
  handlerBodyDiags
    (mkBlockStmt lbrace
       [S_SwitchStmt switch_ init tag (mkBlockStmt lbrace' arms)])
  = flat_map (fun arm => handlerBodyDiags (mkBlockStmt lbrace' (caseBody arm)))
             arms /\
  handlerBodyDiags
    (mkBlockStmt lbrace
       [S_TypeSwitchStmt switch_ init assign (mkBlockStmt lbrace' arms)])
  = flat_map (fun arm => handlerBodyDiags (mkBlockStmt lbrace' (caseBody arm)))
             arms.
Proof.
  intros H.
  assert (E : flat_map (fun arm => handlerBodyDiags
                                     (mkBlockStmt lbrace' (caseBody arm))) arms
              = scanDiags arms).
  { rewrite scanDiags_arms by assumption. apply flat_map_ext.
    intros arm. apply handlerBodyDiags_scan. }
  rewrite E. rewrite !handlerBodyDiags_scan. unfold scanDiags at 1 3.
  cbn -[nestedDiags scanDiags]. rewrite !nestedDiags_shape.
  unfold shapeDiags. cbn -[scanDiags]. rewrite !app_nil_r. auto.
Qed.

Lemma switch_diagnostics_by_arm_witness :
  Forall (fun arm => isCaseClause arm = true) GoMore.arms /\
  handlerBodyDiags
    (mkBlockStmt 760
       [S_SwitchStmt 800 None None (mkBlockStmt 816 GoMore.arms)])
  = flat_map (fun arm => handlerBodyDiags (mkBlockStmt 816 (caseBody arm)))
             GoMore.arms /\
  flat_map (fun arm => handlerBodyDiags (mkBlockStmt 816 (caseBody arm)))
           GoMore.arms
  = [Go.at_ 835; Go.at_ 915].
Proof.
  assert (H : Forall (fun arm => isCaseClause arm = true) GoMore.arms).
  { repeat constructor. }
  split; [exact H|].
  split.
  - exact (proj1 (@switch_diagnostics_by_arm 760%Z 800%Z 816%Z None None
                    (S_EmptyStmt 0) GoMore.arms H)).
  - vm_compute. reflexivity.
Defined.

(* ------------------------------------------------------------------ *)
(** ** Whole runs *)






Lemma funcDeclDiags_None (funcDecl : FuncDecl) :
  funcDeclDiags funcDecl = None <-> matchedWithoutBody funcDecl.
Proof.
  unfold funcDeclDiags, matchedWithoutBody.
  destruct (isMiddlewarePattern funcDecl).
  - destruct (FuncBody funcDecl); split; try discriminate; auto.
    intros [_ H]. discriminate H.
  - split; [discriminate|]. intros [H _]. discriminate H.
Qed.

Lemma runDiags_None (decls : list FuncDecl) :
  runDiags decls = None <-> Exists matchedWithoutBody decls.
Proof.
  induction decls as [|d decls IH]; simpl.
  - split; [discriminate|]. intros H. inversion H.
  - rewrite Exists_cons, <- IH, <- funcDeclDiags_None.
    destruct (funcDeclDiags d); [|tauto].
    destruct (runDiags decls); split; try discriminate; auto.
    intros [H|H]; discriminate H.
Qed.

(** X9. A run panics if and only if some function declaration of the files
    is accepted by the matcher and has no body; the declarations before and
    after it make no difference. *)
Theorem run_panics_iff (pass : Pass) :
  run pass = Panic <-> Exists matchedWithoutBody (funcDecls (Files pass)).
Proof.
  rewrite run_diags, <- runDiags_None.
  destruct (runDiags (funcDecls (Files pass))); split; try discriminate; auto.
Qed.

Lemma reportedAlone_diags (funcDecl : FuncDecl) (ds : list Diagnostic) :
  funcDeclDiags funcDecl = Some ds -> reportedAlone funcDecl = ds.
Proof.
  intros E. unfold reportedAlone. rewrite visitFuncDecl_diags, E. reflexivity.
Qed.

Lemma runDiags_per_function (decls : list FuncDecl) :
  forall ds, runDiags decls = Some ds -> ds = flat_map reportedAlone decls.
Proof.
  induction decls as [|d decls IH]; intros ds; simpl.
  - intros E. now injection E as <-.
  - destruct (funcDeclDiags d) as [ds1|] eqn:E1; [|discriminate].
    destruct (runDiags decls) as [ds2|]; [|discriminate].
    intros E. injection E as <-.
    now rewrite (reportedAlone_diags _ E1), <- (IH ds2 eq_refl).
Qed.

(** X10. Function declarations are analysed independently and in order: the
    diagnostics a returning run adds are, for each function declaration of
    the files in turn, those the analysis of that declaration alone
    reports. *)
Theorem run_per_function (pass pass' : Pass) :
  run pass = Ok (tt, pass') ->
  Reported pass'
  = Reported pass ++ flat_map reportedAlone (funcDecls (Files pass)).
Proof.
  rewrite run_diags.
  destruct (runDiags (funcDecls (Files pass))) as [ds|] eqn:E; [|discriminate].
  intros H. injection H as <-. simpl. f_equal.
  now apply runDiags_per_function.
Qed.

Lemma run_per_function_witness :
  run (Go.pass Go.example_go)
  = Ok (tt, mkPass [Go.file Go.example_go]
                   (map Go.at_ [230; 835; 915; 1260]%Z)) /\
  map Go.at_ [230; 835; 915; 1260]%Z
  = [] ++ flat_map reportedAlone Go.example_go /\
  map reportedAlone Go.example_go
  = [[Go.at_ 230]; []; [Go.at_ 835; Go.at_ 915]; [Go.at_ 1260]; []; []; []].
Proof.
  assert (E : run (Go.pass Go.example_go)
              = Ok (tt, mkPass [Go.file Go.example_go]
                               (map Go.at_ [230; 835; 915; 1260]%Z))).
  { vm_compute. reflexivity. }
  split; [exact E|].
  split.
  - exact (run_per_function (Go.pass Go.example_go) E).
  - vm_compute. reflexivity.
Defined.

(* ------------------------------------------------------------------ *)
(** ** Else branches *)

(** X11. An if with an else branch yields the diagnostics of its body
    followed by those of the else branch, be it a block or a further if,
    each scanned on its own; an else-if chain is thus followed to its end. *)
Theorem if_diagnostics_by_branch (lbrace lbrace' if_ : token.Pos)
        (init : option Stmt) (cond : Expr) (body : BlockStmt) (els : Stmt) :
  isCandidate els = false ->
  handlerBodyDiags
    (mkBlockStmt lbrace [S_IfStmt if_ init cond body (Some els)])
  = handlerBodyDiags body ++ handlerBodyDiags (mkBlockStmt lbrace' [els]).
Proof.
  intros C. rewrite !handlerBodyDiags_scan. cbn [BlockList].
  unfold scanDiags at 1 3. cbn -[nestedDiags scanDiags].
  rewrite (violationAt_not_candidate _ _ _ C).
  rewrite (nestedDiags_shape (S_IfStmt if_ init cond body (Some els))).
  unfold shapeDiags. cbn -[nestedDiags scanDiags].
  now rewrite !app_nil_r.
Qed.

Lemma if_diagnostics_by_branch_witness :
  isCandidate GoMore.elseIf = false /\
  handlerBodyDiags
    (mkBlockStmt 160
       [S_IfStmt 200 None (Go.cond 203) (Go.block 222 Go.reject)
                 (Some GoMore.elseIf)])
  = handlerBodyDiags (Go.block 222 Go.reject)
    ++ handlerBodyDiags (mkBlockStmt 160 [GoMore.elseIf]) /\
  handlerBodyDiags
    (mkBlockStmt 160
       [S_IfStmt 200 None (Go.cond 203) (Go.block 222 Go.reject)
                 (Some GoMore.elseIf)])
  = [Go.at_ 230; Go.at_ 4430].
Proof.
  split; [reflexivity|].
  split.
  - exact (@if_diagnostics_by_branch 160%Z 160%Z 200%Z None (Go.cond 203)
             (Go.block 222 Go.reject) GoMore.elseIf eq_refl).
  - vm_compute. reflexivity.
Defined.
